(** * Embassy appointment scheduling: the validation and persistence core

    A shallow embedding of [app.py]: the medical-exam validator
    ([validate_medical_exam]), the transaction manager ([get_db]) and the
    three request handlers that touch the [appointments] table
    ([create_appointment], [appointment_detail], [list_appointments]).

    Conventions of the embedding.
    - A Python [str] is a [string]; one [ascii] stands for one code point
      below 256.  On that range the regular-expression class [\d] is
      exactly ['0'..'9'].  Text with code points from 256 up, where
      CPython's [\d] and [int()] also take the other Unicode decimal
      digits, is outside the embedding; the statements below name what
      [strptime] reads rather than fix it to a grammar wherever that
      matters.
    - A Python [int] is a [Z].
    - A computation that may raise returns a [result]; the exception
      classes that occur are the constructors of [exn].
    - The library calls the validator makes are embedded from CPython:
      [datetime.strptime] through the pattern [_strptime] compiles for
      ['%Y-%m-%d'] and a backtracking matcher for it, [datetime.__sub__]
      and the [timedelta] constructor with their range checks.
    - The environment a handler reads ([datetime.now()], [uuid.uuid4()],
      SQLite's [CURRENT_TIMESTAMP]) is passed in as an [environment].
    - The table is a finite map from the primary key to the row; a
      statement changes the view of the open transaction, and [get_db]
      commits or rolls that view back.  Faults of the storage medium
      itself (a file that cannot be opened) are not part of the model. *)

From Stdlib Require Import ZArith String Ascii DecimalString Lia Bool.
From stdpp Require Import gmap strings list sorting.

Local Open Scope string_scope.
Local Open Scope Z_scope.

(** ** Exceptions *)

Inductive exn : Type :=
| ValueError (msg : string)
| OverflowError (msg : string)
| KeyError (key : string)
| IntegrityError (msg : string).

Inductive result (A : Type) : Type :=
| Ok (a : A)
| Raise (e : exn).
Arguments Ok {A} a.
Arguments Raise {A} e.

#[global] Instance result_ret : MRet result := fun A a => Ok a.
#[global] Instance result_bind : MBind result := fun A B f m =>
  match m with
  | Ok a => f a
  | Raise e => Raise e
  end.

(** [try: m except ValueError: h] *)
Definition except_ValueError {A} (m : result A) (h : result A) : result A :=
  match m with
  | Raise (ValueError _) => h
  | other => other
  end.

(** [try: m except Exception: h] *)
Definition except_Exception {A} (m : result A) (h : exn -> A) : A :=
  match m with
  | Ok a => a
  | Raise e => h e
  end.

(** ** Configuration ([app.config]) *)

Record config : Type := {
  EMBASSY_NAME : string;
  MEDICAL_EXAM_REQUIRED : bool;
  MEDICAL_EXAM_VALIDITY_DAYS : Z
}.

(** [str(n)] for an [int] *)
Definition str (n : Z) : string := NilZero.string_of_int (Z.to_int n).

(** ** The [datetime] module *)

Module datetime.

Definition MINYEAR : Z := 1.
Definition MAXYEAR : Z := 9999.

Definition _is_leap (year : Z) : bool :=
  (year mod 4 =? 0) && (negb (year mod 100 =? 0) || (year mod 400 =? 0)).

Definition _days_before_year (year : Z) : Z :=
  let y := year - 1 in
  y * 365 + y / 4 - y / 100 + y / 400.

Definition _DAYS_IN_MONTH (month : Z) : Z :=
  match month with
  | 1 => 31 | 2 => 28 | 3 => 31 | 4 => 30 | 5 => 31 | 6 => 30
  | 7 => 31 | 8 => 31 | 9 => 30 | 10 => 31 | 11 => 30 | 12 => 31
  | _ => -1
  end.

Definition _DAYS_BEFORE_MONTH (month : Z) : Z :=
  match month with
  | 1 => 0 | 2 => 31 | 3 => 59 | 4 => 90 | 5 => 120 | 6 => 151
  | 7 => 181 | 8 => 212 | 9 => 243 | 10 => 273 | 11 => 304 | 12 => 334
  | _ => -1
  end.

Definition _days_in_month (year month : Z) : Z :=
  if (month =? 2) && _is_leap year then 29 else _DAYS_IN_MONTH month.

Definition _days_before_month (year month : Z) : Z :=
  _DAYS_BEFORE_MONTH month + (if (month >? 2) && _is_leap year then 1 else 0).

Definition _ymd2ord (year month day : Z) : Z :=
  _days_before_year year + _days_before_month year month + day.

(** the test of [_check_date_fields] *)
Definition date_fields_ok (year month day : Z) : bool :=
  (MINYEAR <=? year) && (year <=? MAXYEAR) &&
  (1 <=? month) && (month <=? 12) &&
  (1 <=? day) && (day <=? _days_in_month year month).

(** the test of [_check_time_fields] *)
Definition time_fields_ok (hour minute second microsecond : Z) : bool :=
  (0 <=? hour) && (hour <=? 23) && (0 <=? minute) && (minute <=? 59) &&
  (0 <=? second) && (second <=? 59) &&
  (0 <=? microsecond) && (microsecond <=? 999999).

(** a naive [datetime] object *)
Record t : Type := mk {
  year : Z; month : Z; day : Z;
  hour : Z; minute : Z; second : Z; microsecond : Z
}.

(** the invariant every constructed [datetime] object satisfies *)
Definition ok (d : t) : bool :=
  date_fields_ok (year d) (month d) (day d) &&
  time_fields_ok (hour d) (minute d) (second d) (microsecond d).

(** the constructor [datetime(year, month, day, hour, minute, second, us)] *)
Definition new (y m d hh mm ss us : Z) : result t :=
  if negb (date_fields_ok y m d) then Raise (ValueError "date fields out of range")
  else if negb (time_fields_ok hh mm ss us) then Raise (ValueError "time fields out of range")
  else Ok (mk y m d hh mm ss us).

Definition toordinal (d : t) : Z := _ymd2ord (year d) (month d) (day d).

(** a [timedelta] object, normalised *)
Record timedelta : Type := mk_timedelta {
  days : Z; seconds : Z; microseconds : Z
}.

(** the constructor [timedelta(days, seconds, microseconds)] on ints *)
Definition new_timedelta (d s us : Z) : result timedelta :=
  let s := s + us / 1000000 in
  let us := us mod 1000000 in
  let d := d + s / 86400 in
  let s := s mod 86400 in
  if Z.abs d >? 999999999
  then Raise (OverflowError "days out of range")
  else Ok (mk_timedelta d s us).

(** [datetime.__sub__] on two naive datetimes *)
Definition sub (self other : t) : result timedelta :=
  let days1 := toordinal self in
  let days2 := toordinal other in
  let secs1 := second self + minute self * 60 + hour self * 3600 in
  let secs2 := second other + minute other * 60 + hour other * 3600 in
  new_timedelta (days1 - days2) (secs1 - secs2)
                (microsecond self - microsecond other).

End datetime.

(** ** The fragment of [re] that [_strptime] uses for ['%Y-%m-%d'] *)

Module re.

Inductive regex : Type :=
| Chr (c : ascii)                     (* a literal character *)
| Digit                               (* \d *)
| Rng (lo hi : ascii)                 (* [lo-hi] *)
| Cat (r1 r2 : regex)                 (* r1 r2 *)
| Alt (r1 r2 : regex)                 (* r1|r2, the left branch first *)
| Grp (name : string) (r : regex).    (* (?P<name>r) *)

Definition in_range (lo hi c : ascii) : bool :=
  ((N_of_ascii lo <=? N_of_ascii c) && (N_of_ascii c <=? N_of_ascii hi))%N.

(** [\d] on code points below 256, where the decimal digits are
    ['0'..'9'] only *)
Definition is_digit (c : ascii) : bool := in_range "0" "9" c.

(** the part of [s] consumed when [rest] is what remains of it *)
Definition consumed (s rest : string) : string :=
  substring 0 (String.length s - String.length rest)%nat s.

(** Backtracking matcher: [k] is what has to match after [r]; an
    alternative is abandoned for the next one when [k] fails. *)
Fixpoint run {A} (r : regex) (s : string) (g : gmap string string)
    (k : string -> gmap string string -> option A) : option A :=
  match r with
  | Chr c =>
      match s with
      | String c' s' => if Ascii.eqb c c' then k s' g else None
      | EmptyString => None
      end
  | Digit =>
      match s with
      | String c' s' => if is_digit c' then k s' g else None
      | EmptyString => None
      end
  | Rng lo hi =>
      match s with
      | String c' s' => if in_range lo hi c' then k s' g else None
      | EmptyString => None
      end
  | Cat r1 r2 => run r1 s g (fun s' g' => run r2 s' g' k)
  | Alt r1 r2 =>
      match run r1 s g k with
      | Some a => Some a
      | None => run r2 s g k
      end
  | Grp name r1 => run r1 s g (fun s' g' => k s' (<[name := consumed s s']> g'))
  end.

(** [re.match]: the text left after the match ([found.end()] is what
    precedes it) and [found.groupdict()] *)
Definition rmatch (r : regex) (s : string) : option (string * gmap string string) :=
  run r s ∅ (fun rest g => Some (rest, g)).

End re.

(** ** [datetime.strptime(data_string, '%Y-%m-%d')] *)

Module _strptime.
Import re.

(** [(?P<Y>\d\d\d\d)] *)
Definition rx_Y : regex :=
  Grp "Y" (Cat Digit (Cat Digit (Cat Digit Digit))).

(** [(?P<m>1[0-2]|0[1-9]|[1-9])] *)
Definition rx_m : regex :=
  Grp "m" (Alt (Cat (Chr "1") (Rng "0" "2"))
          (Alt (Cat (Chr "0") (Rng "1" "9"))
               (Rng "1" "9"))).

(** [(?P<d>3[0-1]|[1-2]\d|0[1-9]|[1-9]| [1-9])] *)
Definition rx_d : regex :=
  Grp "d" (Alt (Cat (Chr "3") (Rng "0" "1"))
          (Alt (Cat (Rng "1" "2") Digit)
          (Alt (Cat (Chr "0") (Rng "1" "9"))
          (Alt (Rng "1" "9")
               (Cat (Chr " ") (Rng "1" "9")))))).

(** the pattern compiled from the format ['%Y-%m-%d'] *)
Definition format_regex : regex :=
  Cat rx_Y (Cat (Chr "-") (Cat rx_m (Cat (Chr "-") rx_d))).

Fixpoint lstrip (s : string) : string :=
  match s with
  | String c s' => if Ascii.eqb c " " then lstrip s' else s
  | EmptyString => s
  end.

Fixpoint digits_value (acc : Z) (s : string) : option Z :=
  match s with
  | EmptyString => Some acc
  | String c s' =>
      if is_digit c
      then digits_value (10 * acc + Z.of_N (N_of_ascii c - 48)) s'
      else None
  end.

(** [int(s)] on what a group of [format_regex] can capture from text of
    code points below 256: the digits ['0'..'9'] after optional blanks *)
Definition int (s : string) : result Z :=
  match lstrip s with
  | EmptyString => Raise (ValueError "invalid literal for int()")
  | s' =>
      match digits_value 0 s' with
      | Some n => Ok n
      | None => Raise (ValueError "invalid literal for int()")
      end
  end.

(** [found_dict[key]] *)
Definition getitem (found_dict : gmap string string) (key : string) : result string :=
  match found_dict !! key with
  | Some v => Ok v
  | None => Raise (KeyError key)
  end.

Definition strptime (data_string : string) : result datetime.t :=
  match rmatch format_regex data_string with
  | None => Raise (ValueError "time data does not match format")
  | Some (rest, found_dict) =>
      if negb (String.eqb rest "")
      then Raise (ValueError "unconverted data remains")
      else
        year ← getitem found_dict "Y" ≫= int;
        month ← getitem found_dict "m" ≫= int;
        day ← getitem found_dict "d" ≫= int;
        datetime.new year month day 0 0 0 0
  end.

End _strptime.

(** ** The medical-exam validator *)

Definition validate_medical_exam (cfg : config) (now : datetime.t)
    (exam_date_str : string) : result (bool * string) :=
  except_ValueError
    (exam_date ← _strptime.strptime exam_date_str;
     delta ← datetime.sub now exam_date;
     let days_ago := datetime.days delta in
     let validity_days := MEDICAL_EXAM_VALIDITY_DAYS cfg in
     if days_ago <? 0
     then Ok (false, "Medical exam date cannot be in the future")
     else if days_ago >? validity_days
     then Ok (false, "Medical exam must be within the last " +:+ str validity_days +:+ " days")
     else Ok (true, "Medical exam is valid"))
    (Ok (false, "Invalid date format")).

(** ** The [appointments] table *)

Module appointment.

(** a row, one field per column of the schema *)
Record t : Type := mk {
  id : string;
  applicant_name : string;
  email : string;
  passport_number : string;
  phone_number : string;
  appointment_date : string;
  appointment_time : string;
  medical_exam_date : string;
  medical_exam_verified : Z;
  status : string;
  created_at : string;
  updated_at : string
}.

End appointment.

(** the nine columns that [list_appointments] selects *)
Module listed.

Record t : Type := mk {
  id : string;
  applicant_name : string;
  email : string;
  passport_number : string;
  appointment_date : string;
  appointment_time : string;
  status : string;
  medical_exam_date : string;
  medical_exam_verified : Z
}.

Definition of_row (r : appointment.t) : t :=
  mk (appointment.id r) (appointment.applicant_name r) (appointment.email r)
     (appointment.passport_number r) (appointment.appointment_date r)
     (appointment.appointment_time r) (appointment.status r)
     (appointment.medical_exam_date r) (appointment.medical_exam_verified r).

End listed.

(** the persisted table: primary key [id] to row *)
Abbreviation table := (gmap string appointment.t).

(** ** SQL statements run on an open connection

    A statement acts on the connection's view of the table and may
    raise. *)

Definition sql (A : Type) : Type := table -> result A * table.

#[global] Instance sql_ret : MRet sql := fun A a t => (Ok a, t).
#[global] Instance sql_bind : MBind sql := fun A B f m t =>
  match m t with
  | (Ok a, t') => f a t'
  | (Raise e, t') => (Raise e, t')
  end.

(** a Python expression evaluated inside the [with] block *)
Definition eval {A} (r : result A) : sql A := fun t => (r, t).

(** [INSERT INTO appointments (...) VALUES (...)]: the primary key must
    be new *)
Definition execute_insert (row : appointment.t) : sql unit := fun t =>
  match t !! appointment.id row with
  | Some _ => (Raise (IntegrityError "UNIQUE constraint failed: appointments.id"), t)
  | None => (Ok tt, <[appointment.id row := row]> t)
  end.

(** [SELECT * FROM appointments WHERE id = ?] followed by [fetchone()] *)
Definition select_by_id (appointment_id : string) : sql (option appointment.t) :=
  fun t => (Ok (t !! appointment_id), t).

(** SQLite's comparison of two TEXT values (BINARY collation) *)
Definition text_lt (a b : string) : bool :=
  match String.compare a b with Lt => true | _ => false end.

(** [ORDER BY appointment_date DESC, appointment_time DESC]: [a] may be
    placed before [b] *)
Definition order_by (a b : listed.t) : bool :=
  text_lt (listed.appointment_date b) (listed.appointment_date a)
  || (String.eqb (listed.appointment_date a) (listed.appointment_date b)
      && negb (text_lt (listed.appointment_time a) (listed.appointment_time b))).

Definition placed_before (a b : listed.t) : Prop := order_by a b = true.

#[global] Instance placed_before_dec : RelDecision placed_before.
Proof. intros a b. unfold placed_before. apply _. Defined.

(** [SELECT id, ... FROM appointments ORDER BY ...] followed by
    [fetchall()]; the place of rows with the same date and time among
    themselves is whatever the sort makes of the map's key order *)
Definition select_all_ordered : sql (list listed.t) := fun t =>
  (Ok (merge_sort placed_before (listed.of_row <$> (map_to_list t).*2)), t).

(** ** The transaction manager *)

Record connection : Type := {
  committed : table;      (* what the database file holds *)
  working : table         (* the view of the open transaction *)
}.

Definition connect (db : table) : connection :=
  {| committed := db; working := db |}.

Definition commit (conn : connection) : connection :=
  {| committed := working conn; working := working conn |}.

Definition rollback (conn : connection) : connection :=
  {| committed := committed conn; working := committed conn |}.

(** closing drops whatever the open transaction has not committed *)
Definition close (conn : connection) : table := committed conn.

(** the statements of the [with] block, run on [conn] *)
Definition yield {A} (body : sql A) (conn : connection) : result A * connection :=
  let '(r, w) := body (working conn) in
  (r, {| committed := committed conn; working := w |}).

(** [with get_db() as conn: body] *)
Definition get_db {A} (body : sql A) (db : table) : result A * table :=
  let conn := connect db in
  match yield body conn with
  | (Ok a, conn) => (Ok a, close (commit conn))
  | (Raise e, conn) => (Raise e, close (rollback conn))
  end.

(** ** Requests and responses *)

(** [request.form]: the pairs of the form-encoded body in order; a key
    may occur more than once and the first value counts *)
Definition form : Type := list (string * string).

Fixpoint get (data : form) (key : string) : option string :=
  match data with
  | [] => None
  | (k, v) :: rest => if String.eqb k key then Some v else get rest key
  end.

(** [data[key]] *)
Definition getitem (data : form) (key : string) : result string :=
  match get data key with
  | Some v => Ok v
  | None => Raise (KeyError key)
  end.

(** [data.get(key, default)] *)
Definition get_default (data : form) (key default : string) : string :=
  match get data key with
  | Some v => v
  | None => default
  end.

(** truth value of [data.get(field)] *)
Definition truthy (v : option string) : bool :=
  match v with
  | Some (String _ _) => true
  | _ => false
  end.

Inductive context_value : Type :=
| CStr (s : string)
| CBool (b : bool)
| CForm (data : form)
| CRow (row : appointment.t)
| CRows (rows : list listed.t).

Inductive response : Type :=
| JsonResponse (payload : list (string * string)) (status : Z)
| TemplateResponse (template : string) (context : list (string * context_value)) (status : Z)
| TextResponse (text : string) (status : Z)
| RedirectResponse (endpoint : string) (appointment_id : string).

Definition status_code (r : response) : Z :=
  match r with
  | JsonResponse _ st | TemplateResponse _ _ st | TextResponse _ st => st
  | RedirectResponse _ _ => 302
  end.

(** what a handler reads from outside the request *)
Record environment : Type := {
  now : datetime.t;               (* datetime.now() *)
  uuid4 : string;                 (* str(uuid.uuid4()) *)
  CURRENT_TIMESTAMP : string      (* SQLite's clock *)
}.

(** ** Handlers *)

Definition required_fields : list string :=
  ["applicant_name"; "email"; "passport_number";
   "appointment_date"; "appointment_time"; "medical_exam_date"].

(** the loop over [required_fields]: the field it returns on, if any *)
Fixpoint first_missing (data : form) (fields : list string) : option string :=
  match fields with
  | [] => None
  | field :: rest =>
      if negb (truthy (get data field)) then Some field
      else first_missing data rest
  end.

(** the medical-exam step: the message to reject with, if any *)
Definition exam_rejection (cfg : config) (env : environment) (data : form)
    : result (option string) :=
  if MEDICAL_EXAM_REQUIRED cfg then
    exam_date_str ← getitem data "medical_exam_date";
    '(is_valid, message) ← validate_medical_exam cfg (now env) exam_date_str;
    mret (if negb is_valid then Some message else None)
  else mret None.

(** the tuple bound to the INSERT, with the column defaults filled in *)
Definition insert_values (env : environment) (data : form) (appointment_id : string)
    : result appointment.t :=
  applicant_name ← getitem data "applicant_name";
  email ← getitem data "email";
  passport_number ← getitem data "passport_number";
  let phone_number := get_default data "phone_number" "" in
  appointment_date ← getitem data "appointment_date";
  appointment_time ← getitem data "appointment_time";
  medical_exam_date ← getitem data "medical_exam_date";
  mret (appointment.mk appointment_id applicant_name email passport_number
          phone_number appointment_date appointment_time medical_exam_date
          1 "confirmed" (CURRENT_TIMESTAMP env) (CURRENT_TIMESTAMP env)).

(** the [try] block of [create_appointment] *)
Definition create_appointment_try (cfg : config) (env : environment)
    (data : form) (db : table) : result response * table :=
  match first_missing data required_fields with
  | Some field =>
      (Ok (JsonResponse [("error", "Missing required field: " +:+ field)] 400), db)
  | None =>
      match exam_rejection cfg env data with
      | Raise e => (Raise e, db)
      | Ok (Some message) =>
          (Ok (TemplateResponse "index.html"
                 [("error", CStr message);
                  ("embassy_name", CStr (EMBASSY_NAME cfg));
                  ("medical_required", CBool (MEDICAL_EXAM_REQUIRED cfg));
                  ("form_data", CForm data)] 400), db)
      | Ok None =>
          let appointment_id := uuid4 env in
          match get_db (row ← eval (insert_values env data appointment_id);
                        execute_insert row) db with
          | (Raise e, db') => (Raise e, db')
          | (Ok _, db') =>
              (Ok (RedirectResponse "appointment_detail" appointment_id), db')
          end
      end
  end.

(** [POST /appointments] *)
Definition create_appointment (cfg : config) (env : environment)
    (data : form) (db : table) : response * table :=
  let '(r, db') := create_appointment_try cfg env data db in
  (except_Exception r (fun e =>
     TemplateResponse "index.html"
       [("error", CStr "An error occurred while creating the appointment");
        ("embassy_name", CStr (EMBASSY_NAME cfg));
        ("medical_required", CBool (MEDICAL_EXAM_REQUIRED cfg))] 500), db').

(** [GET /appointments/<appointment_id>] *)
Definition appointment_detail (cfg : config) (appointment_id : string)
    (db : table) : result response * table :=
  match get_db (select_by_id appointment_id) db with
  | (Raise e, db') => (Raise e, db')
  | (Ok None, db') => (Ok (TextResponse "Appointment not found" 404), db')
  | (Ok (Some appointment), db') =>
      (Ok (TemplateResponse "appointment_detail.html"
             [("appointment", CRow appointment);
              ("embassy_name", CStr (EMBASSY_NAME cfg))] 200), db')
  end.

(** [GET /appointments] *)
Definition list_appointments (cfg : config) (db : table) : result response * table :=
  match get_db select_all_ordered db with
  | (Raise e, db') => (Raise e, db')
  | (Ok appointments, db') =>
      (Ok (TemplateResponse "appointments.html"
             [("appointments", CRows appointments);
              ("embassy_name", CStr (EMBASSY_NAME cfg))] 200), db')
  end.

(** ** The decision procedure of the specification *)

Module spec.

Inductive verdict : Type :=
| Valid
| InvalidFormat
| InvalidFuture
| InvalidWindow (N : Z).

(** the (flag, message) pair the validator answers a verdict with *)
Definition answer (v : verdict) : bool * string :=
  match v with
  | Valid => (true, "Medical exam is valid")
  | InvalidFormat => (false, "Invalid date format")
  | InvalidFuture => (false, "Medical exam date cannot be in the future")
  | InvalidWindow N =>
      (false, "Medical exam must be within the last " +:+ str N +:+ " days")
  end.

(** current date minus exam date, in days *)
Definition elapsed_days (now exam : datetime.t) : Z :=
  datetime.toordinal now - datetime.toordinal exam.

(** the rules in order, over a given reading of the date string *)
Definition four_rules (parse : string -> option datetime.t)
    (N : Z) (now : datetime.t) (s : string) : verdict :=
  match parse s with
  | None => InvalidFormat
  | Some exam =>
      let elapsed := elapsed_days now exam in
      if elapsed <? 0 then InvalidFuture
      else if N <? elapsed then InvalidWindow N
      else Valid
  end.

Definition digit (c : ascii) : option Z :=
  let n := N_of_ascii c in
  if ((48 <=? n) && (n <=? 57))%N then Some (Z.of_N n - 48) else None.

(** strict [YYYY-MM-DD]: four digits, a hyphen, two digits, a hyphen,
    two digits and nothing else, naming a day of the calendar
    (years 1 to 9999) *)
Definition strict_ymd (s : string) : option datetime.t :=
  match s with
  | String y1 (String y2 (String y3 (String y4 (String h1
    (String m1 (String m2 (String h2 (String d1 (String d2 EmptyString))))))))) =>
      a ← digit y1; b ← digit y2; c ← digit y3; d ← digit y4;
      e ← digit m1; f ← digit m2; g ← digit d1; h ← digit d2;
      let year := 1000 * a + 100 * b + 10 * c + d in
      let month := 10 * e + f in
      let day := 10 * g + h in
      if Ascii.eqb h1 "-" && Ascii.eqb h2 "-"
         && datetime.date_fields_ok year month day
      then Some (datetime.mk year month day 0 0 0 0)
      else None
  | _ => None
  end.

(** the reading [strptime] gives with the format ['%Y-%m-%d'] *)
Definition strptime_ymd (s : string) : option datetime.t :=
  match _strptime.strptime s with
  | Ok exam => Some exam
  | Raise _ => None
  end.

End spec.

(** ** What [strptime] accepts on text of code points below 256, spelled out *)

Module lenient.
Import spec.

(** a month: two digits from 01 to 12 if the text starts with them,
    else one digit from 1 to 9; with what follows it *)
Definition month_field (s : string) : option (Z * string) :=
  match s with
  | String m1 rest1 =>
      let two :=
        match rest1 with
        | String m2 rest2 =>
            e ← digit m1; f ← digit m2;
            if (1 <=? 10 * e + f) && (10 * e + f <=? 12)
            then Some (10 * e + f, rest2) else None
        | EmptyString => None
        end in
      match two with
      | Some r => Some r
      | None => e ← digit m1; if 1 <=? e then Some (e, rest1) else None
      end
  | EmptyString => None
  end.

(** a day: two digits from 01 to 31 if the text starts with them, else
    one digit from 1 to 9, else a blank and one digit from 1 to 9; with
    what follows it *)
Definition day_field (s : string) : option (Z * string) :=
  match s with
  | String d1 rest1 =>
      let two :=
        match rest1 with
        | String d2 rest2 =>
            g ← digit d1; h ← digit d2;
            if (1 <=? 10 * g + h) && (10 * g + h <=? 31)
            then Some (10 * g + h, rest2) else None
        | EmptyString => None
        end in
      let one := g ← digit d1; if 1 <=? g then Some (g, rest1) else None in
      let padded :=
        match rest1 with
        | String d2 rest2 =>
            if Ascii.eqb d1 " "
            then h ← digit d2; if 1 <=? h then Some (h, rest2) else None
            else None
        | EmptyString => None
        end in
      match two, one with
      | Some r, _ => Some r
      | None, Some r => Some r
      | None, None => padded
      end
  | EmptyString => None
  end.

(** four digits, a hyphen, a month, a hyphen, a day and nothing else,
    naming a day of the calendar (years 1 to 9999) *)
Definition ymd (s : string) : option datetime.t :=
  match s with
  | String y1 (String y2 (String y3 (String y4 (String h1 rest)))) =>
      a ← digit y1; b ← digit y2; c ← digit y3; d ← digit y4;
      let year := 1000 * a + 100 * b + 10 * c + d in
      if Ascii.eqb h1 "-" then
        '(month, rest) ← month_field rest;
        match rest with
        | String h2 rest =>
            if Ascii.eqb h2 "-" then
              '(day, rest) ← day_field rest;
              if String.eqb rest "" && datetime.date_fields_ok year month day
              then Some (datetime.mk year month day 0 0 0 0)
              else None
            else None
        | EmptyString => None
        end
      else None
  | _ => None
  end.

End lenient.

(** ** Auxiliary definitions for the statements *)

(** the groups of a pattern that do not sit under an alternative: the
    ones every match records *)
Fixpoint alt_free_groups (r : re.regex) : list string :=
  match r with
  | re.Chr _ | re.Digit | re.Rng _ _ => []
  | re.Cat r1 r2 => alt_free_groups r1 ++ alt_free_groups r2
  | re.Alt _ _ => []
  | re.Grp name r1 => name :: alt_free_groups r1
  end.

(** a two-character month, ["01"] to ["12"], by character codes *)
Definition month2 (m1 m2 : ascii) : Prop :=
  (N_of_ascii m1 = 49 /\ 48 <= N_of_ascii m2 <= 50)%N \/
  (N_of_ascii m1 = 48 /\ 49 <= N_of_ascii m2 <= 57)%N.

(** a two-character day, ["01"] to ["31"], by character codes *)
Definition day2 (d1 d2 : ascii) : Prop :=
  (N_of_ascii d1 = 51 /\ 48 <= N_of_ascii d2 <= 49)%N \/
  (49 <= N_of_ascii d1 <= 50 /\ 48 <= N_of_ascii d2 <= 57)%N \/
  (N_of_ascii d1 = 48 /\ 49 <= N_of_ascii d2 <= 57)%N.

(** a continuation that fails unless the text starts with a hyphen *)
Definition hyphen_next {A} (k : string -> gmap string string -> option A) : Prop :=
  forall s g, (forall rest, s <> String "-" rest) -> k s g = None.

(** a required field is present and non-empty *)
Definition present (data : form) (field : string) : Prop :=
  truthy (get data field) = true.

(** the row a creation request stores under [appointment_id] *)
Definition stored_row (env : environment) (data : form) (appointment_id : string)
    : appointment.t :=
  appointment.mk appointment_id
    (get_default data "applicant_name" "") (get_default data "email" "")
    (get_default data "passport_number" "") (get_default data "phone_number" "")
    (get_default data "appointment_date" "") (get_default data "appointment_time" "")
    (get_default data "medical_exam_date" "")
    1 "confirmed" (CURRENT_TIMESTAMP env) (CURRENT_TIMESTAMP env).

(** the order the listing is claimed to have: [a] before [b] when its
    date is later, or the dates agree and its time is not earlier *)
Definition date_time_descending (a b : listed.t) : Prop :=
  String.compare (listed.appointment_date b) (listed.appointment_date a) = Lt \/
  (listed.appointment_date a = listed.appointment_date b /\
   String.compare (listed.appointment_time a) (listed.appointment_time b) <> Lt).

(** ** Sample data for the worked scenarios *)

(** sample configuration and clock for the worked scenarios: a 180-day
    window and the early afternoon of 2024-06-01 *)
Definition cfg180 : config := Build_config "U.S. Embassy" true 180.
Definition now_2024_06_01 : datetime.t := datetime.mk 2024 6 1 13 30 0 5.

(** the medical-exam requirement switched off *)
Definition cfg_not_required : config := Build_config "U.S. Embassy" false 180.

(** a request environment and the form of the specification's example *)
Definition env_sample : environment :=
  Build_environment now_2024_06_01 "0b9f2c1e-5d1a-4c53-9d0e-3f6a7b8c9d10" "2024-06-01 20:30:00".

Definition form_jane : form :=
  [("applicant_name", "Jane Doe"); ("email", "j@x.com");
   ("passport_number", "P123"); ("appointment_date", "2024-07-10");
   ("appointment_time", "09:00"); ("medical_exam_date", "2024-06-01")].

(** the row that example stores *)
Definition row_sample : appointment.t :=
  stored_row env_sample form_jane (uuid4 env_sample).

(** the table holding just that row *)
Definition db_sample : table := <[appointment.id row_sample := row_sample]> ∅.

(** ** The calendar order of dates *)

(** [a] is an earlier day than [b], or the same day *)
Definition date_le (a b : datetime.t) : Prop :=
  datetime.year a < datetime.year b \/
  (datetime.year a = datetime.year b /\
   (datetime.month a < datetime.month b \/
    (datetime.month a = datetime.month b /\ datetime.day a <= datetime.day b))).

(** [a] is an earlier day than [b] *)
Definition date_lt (a b : datetime.t) : Prop :=
  datetime.year a < datetime.year b \/
  (datetime.year a = datetime.year b /\
   (datetime.month a < datetime.month b \/
    (datetime.month a = datetime.month b /\ datetime.day a < datetime.day b))).

(** ** Listed entries and stored rows *)

(** the nine listed columns of [entry] hold the values of [row] *)
Definition shows (entry : listed.t) (row : appointment.t) : Prop :=
  listed.id entry = appointment.id row /\
  listed.applicant_name entry = appointment.applicant_name row /\
  listed.email entry = appointment.email row /\
  listed.passport_number entry = appointment.passport_number row /\
  listed.appointment_date entry = appointment.appointment_date row /\
  listed.appointment_time entry = appointment.appointment_time row /\
  listed.status entry = appointment.status row /\
  listed.medical_exam_date entry = appointment.medical_exam_date row /\
  listed.medical_exam_verified entry = appointment.medical_exam_verified row.

(** ** Tables the creation handler can produce *)

(** what holds of a row stored under [key] by the creation handler *)
Definition row_ok (key : string) (row : appointment.t) : Prop :=
  appointment.id row = key /\
  appointment.status row = "confirmed" /\
  appointment.medical_exam_verified row = 1 /\
  appointment.applicant_name row <> "" /\
  appointment.email row <> "" /\
  appointment.passport_number row <> "" /\
  appointment.appointment_date row <> "" /\
  appointment.appointment_time row <> "" /\
  appointment.medical_exam_date row <> "" /\
  appointment.updated_at row = appointment.created_at row.

Definition table_ok (db : table) : Prop := map_Forall row_ok db.

(** the tables reached from the empty one by creation requests, under
    any configuration and environment *)
Inductive reachable : table -> Prop :=
| reachable_empty : reachable ∅
| reachable_create cfg env data db :
    reachable db -> reachable (create_appointment cfg env data db).2.

(** ** The metrics endpoint *)

(** the part of [app.config] the metrics report *)
Record deployment : Type := {
  APP_VERSION : string;
  ENVIRONMENT : string
}.

(** the count of all rows of [appointments] *)
Definition count_all : sql Z := fun t => (Ok (Z.of_nat (size t)), t).

(** the count of the rows of [appointments] with [status = st] *)
Definition count_by_status (st : string) : sql Z := fun t =>
  (Ok (Z.of_nat (size (filter (fun kv : string * appointment.t =>
                                 appointment.status kv.2 = st) t))), t).

(** a line feed and a double quote *)
Definition nl : string := String "010" "".
Definition dquote : string := String "034" "".

(** the f-string of [metrics] *)
Definition metrics_output (dep : deployment) (total pending confirmed : Z) : string :=
  "# HELP appointments_total Total number of appointments" +:+ nl +:+
  "# TYPE appointments_total counter" +:+ nl +:+
  "appointments_total " +:+ str total +:+ nl +:+
  nl +:+
  "# HELP appointments_pending Number of pending appointments" +:+ nl +:+
  "# TYPE appointments_pending gauge" +:+ nl +:+
  "appointments_pending " +:+ str pending +:+ nl +:+
  nl +:+
  "# HELP appointments_confirmed Number of confirmed appointments" +:+ nl +:+
  "# TYPE appointments_confirmed gauge" +:+ nl +:+
  "appointments_confirmed " +:+ str confirmed +:+ nl +:+
  nl +:+
  "# HELP app_info Application information" +:+ nl +:+
  "# TYPE app_info gauge" +:+ nl +:+
  "app_info{version=" +:+ dquote +:+ APP_VERSION dep +:+ dquote +:+
  ",environment=" +:+ dquote +:+ ENVIRONMENT dep +:+ dquote +:+ "} 1" +:+ nl.

(** [GET /metrics]: the text, the status and the headers *)
Definition metrics (dep : deployment) (db : table)
    : result (string * Z * list (string * string)) * table :=
  match get_db (total_appointments ← count_all;
                pending_appointments ← count_by_status "pending";
                confirmed_appointments ← count_by_status "confirmed";
                mret (total_appointments, pending_appointments,
                      confirmed_appointments)) db with
  | (Raise e, db') => (Raise e, db')
  | (Ok (total_appointments, pending_appointments, confirmed_appointments), db') =>
      (Ok (metrics_output dep total_appointments pending_appointments
             confirmed_appointments,
           200, [("Content-Type", "text/plain; charset=utf-8")]), db')
  end.

(** a deployment for the worked scenarios *)
Definition dep_sample : deployment := Build_deployment "1.0.0" "development".

(** a second request, for a later day, and the table holding both rows *)
Definition env_second : environment :=
  Build_environment now_2024_06_01 "7c1d9a40-2b6e-4f0a-8a57-1e2d3c4b5a69" "2024-06-01 20:45:00".

Definition form_later : form :=
  [("applicant_name", "John Roe"); ("email", "r@x.com");
   ("passport_number", "P456"); ("phone_number", "555-0100");
   ("appointment_date", "2024-08-01"); ("appointment_time", "14:30");
   ("medical_exam_date", "2024-05-20")].

Definition db_two : table :=
  <[uuid4 env_second := stored_row env_second form_later (uuid4 env_second)]> db_sample.


(** ** Facts about the calendar arithmetic *)

Section datetime_facts.
Import datetime.

Lemma days_before_year_bounds y :
  1 <= y <= 9999 -> 0 <= _days_before_year y <= 3651695.
Proof. unfold _days_before_year. intros. cbv zeta. Z.to_euclidean_division_equations. lia. Qed.

Lemma days_in_month_bounds y m :
  1 <= m <= 12 -> 28 <= _days_in_month y m <= 31.
Proof.
  intros Hm. unfold _days_in_month.
  assert (m = 1 \/ m = 2 \/ m = 3 \/ m = 4 \/ m = 5 \/ m = 6 \/ m = 7 \/
          m = 8 \/ m = 9 \/ m = 10 \/ m = 11 \/ m = 12) as Hc by lia.
  destruct (_is_leap y);
    repeat (destruct Hc as [-> | Hc]; [simpl; lia |]); subst; simpl; lia.
Qed.

Lemma days_before_month_bounds y m :
  1 <= m <= 12 -> 0 <= _days_before_month y m <= 335.
Proof.
  intros Hm. unfold _days_before_month.
  assert (m = 1 \/ m = 2 \/ m = 3 \/ m = 4 \/ m = 5 \/ m = 6 \/ m = 7 \/
          m = 8 \/ m = 9 \/ m = 10 \/ m = 11 \/ m = 12) as Hc by lia.
  destruct (_is_leap y);
    repeat (destruct Hc as [-> | Hc]; [simpl; lia |]); subst; simpl; lia.
Qed.

Lemma date_fields_ok_spec y m d :
  date_fields_ok y m d = true <->
  1 <= y <= 9999 /\ 1 <= m <= 12 /\ 1 <= d <= _days_in_month y m.
Proof. unfold date_fields_ok, MINYEAR, MAXYEAR. rewrite !andb_true_iff, !Z.leb_le. lia. Qed.

Lemma time_fields_ok_spec hh mm ss us :
  time_fields_ok hh mm ss us = true <->
  0 <= hh <= 23 /\ 0 <= mm <= 59 /\ 0 <= ss <= 59 /\ 0 <= us <= 999999.
Proof. unfold time_fields_ok. rewrite !andb_true_iff, !Z.leb_le. lia. Qed.

Lemma ymd2ord_bounds y m d :
  date_fields_ok y m d = true -> 1 <= _ymd2ord y m d <= 3652061.
Proof.
  rewrite date_fields_ok_spec. intros (Hy & Hm & Hd).
  pose proof (days_before_year_bounds y Hy).
  pose proof (days_in_month_bounds y m Hm).
  pose proof (days_before_month_bounds y m Hm).
  unfold _ymd2ord. lia.
Qed.

(** Subtracting a midnight from a datetime: the [days] of the
    difference is the difference of the two calendar days, whatever
    the time of day. *)
Lemma sub_midnight now y m d :
  ok now = true -> date_fields_ok y m d = true ->
  exists delta,
    sub now (mk y m d 0 0 0 0) = Ok delta /\
    days delta = toordinal now - _ymd2ord y m d.
Proof.
  unfold ok. rewrite andb_true_iff. intros [Hd Ht] He.
  apply ymd2ord_bounds in Hd, He.
  apply time_fields_ok_spec in Ht.
  unfold sub, new_timedelta, toordinal in *. cbn [year month day hour minute second microsecond].
  set (o1 := _ymd2ord _ _ _) in *. set (o2 := _ymd2ord y m d) in *.
  assert ((second now + minute now * 60 + hour now * 3600 -
           (0 + 0 * 60 + 0 * 3600) + (microsecond now - 0) / 1000000) / 86400 = 0) as ->.
  { rewrite (Z.div_small (microsecond now - 0)) by lia. apply Z.div_small. lia. }
  rewrite Z.add_0_r.
  destruct (Z.abs (o1 - o2) >? 999999999) eqn:E; [lia|].
  eexists. split; [reflexivity|]. reflexivity.
Qed.

End datetime_facts.

(** ** Facts about [strptime] *)

Section strptime_facts.
Import re _strptime.

(** A successful run reaches its continuation with the groups seen so
    far kept and every group outside an alternative recorded. *)
Lemma run_groups {A} (r : regex) :
  forall s g (k : string -> gmap string string -> option A) a,
    run r s g k = Some a ->
    exists s' g',
      k s' g' = Some a /\
      (forall n, is_Some (g !! n) -> is_Some (g' !! n)) /\
      (forall n, n ∈ alt_free_groups r -> is_Some (g' !! n)).
Proof.
  induction r as [c| |lo hi|r1 IH1 r2 IH2|r1 IH1 r2 IH2|name r1 IH1];
    intros s g k a H; cbn [run alt_free_groups] in *.
  - destruct s as [|c' s']; [done|]. destruct (Ascii.eqb c c'); [|done].
    exists s', g. split_and!; [done|done|]. intros n Hn. by apply elem_of_nil in Hn.
  - destruct s as [|c' s']; [done|]. destruct (is_digit c'); [|done].
    exists s', g. split_and!; [done|done|]. intros n Hn. by apply elem_of_nil in Hn.
  - destruct s as [|c' s']; [done|]. destruct (in_range lo hi c'); [|done].
    exists s', g. split_and!; [done|done|]. intros n Hn. by apply elem_of_nil in Hn.
  - apply IH1 in H as (s1 & g1 & H & Hg1 & Hr1).
    apply IH2 in H as (s2 & g2 & H & Hg2 & Hr2).
    exists s2, g2. split_and!; [done|by auto|].
    intros n [Hn|Hn]%elem_of_app; auto.
  - destruct (run r1 s g k) eqn:E1.
    + inversion H; subst. apply IH1 in E1 as (s1 & g1 & Hk & Hg1 & _).
      exists s1, g1. split_and!; [done|done|]. intros n Hn. by apply elem_of_nil in Hn.
    + apply IH2 in H as (s1 & g1 & Hk & Hg1 & _).
      exists s1, g1. split_and!; [done|done|]. intros n Hn. by apply elem_of_nil in Hn.
  - apply IH1 in H as (s1 & g1 & H & Hg1 & Hr1).
    exists s1, (<[name := consumed s s1]> g1). split_and!; [done| |].
    + intros n Hn. destruct (decide (name = n)) as [->|Hne].
      * rewrite lookup_insert_eq. by eexists.
      * rewrite lookup_insert_ne by done. auto.
    + intros n [->|Hn]%elem_of_cons.
      * rewrite lookup_insert_eq. by eexists.
      * destruct (decide (name = n)) as [->|Hne].
        -- rewrite lookup_insert_eq. by eexists.
        -- rewrite lookup_insert_ne by done. auto.
Qed.

Lemma rmatch_groups s rest found_dict :
  rmatch format_regex s = Some (rest, found_dict) ->
  is_Some (found_dict !! "Y") /\ is_Some (found_dict !! "m") /\
  is_Some (found_dict !! "d").
Proof.
  unfold rmatch. intros H.
  apply run_groups in H as (s' & g' & Hk & _ & Hg).
  inversion Hk; subst.
  split_and!; apply Hg; cbn; set_solver.
Qed.

Lemma int_raises s e : int s = Raise e -> exists msg, e = ValueError msg.
Proof.
  unfold int. destruct (lstrip s); [intros [= <-]; eauto|].
  destruct (digits_value _ _); [done|]. intros [= <-]; eauto.
Qed.

Lemma new_raises y m d hh mm ss us e :
  datetime.new y m d hh mm ss us = Raise e -> exists msg, e = ValueError msg.
Proof.
  unfold datetime.new.
  destruct (negb _); [intros [= <-]; eauto|].
  destruct (negb _); [intros [= <-]; eauto|done].
Qed.

Lemma new_ok y m d dt :
  datetime.new y m d 0 0 0 0 = Ok dt ->
  dt = datetime.mk y m d 0 0 0 0 /\ datetime.date_fields_ok y m d = true.
Proof.
  unfold datetime.new.
  destruct (datetime.date_fields_ok y m d); cbn; [|done].
  intros [= <-]. done.
Qed.

(** [strptime] raises nothing but [ValueError], and what it returns is
    a valid date at midnight. *)
Lemma strptime_cases s :
  (exists msg, strptime s = Raise (ValueError msg)) \/
  (exists y m d, strptime s = Ok (datetime.mk y m d 0 0 0 0) /\
                 datetime.date_fields_ok y m d = true).
Proof.
  unfold strptime.
  destruct (rmatch format_regex s) as [[rest found_dict]|] eqn:Hm; [|eauto].
  destruct (negb (String.eqb rest "")); [eauto|].
  apply rmatch_groups in Hm as ([vY HY] & [vm Hmo] & [vd Hd]).
  unfold getitem. rewrite HY, Hmo, Hd. cbn.
  destruct (int vY) as [y|e] eqn:Ey; cbn.
  2:{ apply int_raises in Ey as [msg ->]. eauto. }
  destruct (int vm) as [m|e] eqn:Em; cbn.
  2:{ apply int_raises in Em as [msg ->]. eauto. }
  destruct (int vd) as [d|e] eqn:Ed; cbn.
  2:{ apply int_raises in Ed as [msg ->]. eauto. }
  destruct (datetime.new y m d 0 0 0 0) as [dt|e] eqn:En.
  - apply new_ok in En as [-> Hok]. right. eauto.
  - apply new_raises in En as [msg ->]. eauto.
Qed.

End strptime_facts.

Section char_tests.
Import re.

Lemma ascii_eqb_N a c : Ascii.eqb a c = (N_of_ascii a =? N_of_ascii c)%N.
Proof.
  destruct (Ascii.eqb_spec a c) as [->|Hne].
  - symmetry. apply N.eqb_refl.
  - symmetry. apply N.eqb_neq. intros H. apply Hne.
    rewrite <- (ascii_N_embedding a), <- (ascii_N_embedding c). by rewrite H.
Qed.

Lemma in_range_true lo hi c :
  in_range lo hi c = true <-> (N_of_ascii lo <= N_of_ascii c <= N_of_ascii hi)%N.
Proof. unfold in_range. rewrite andb_true_iff, !N.leb_le. done. Qed.

Lemma in_range_false lo hi c :
  in_range lo hi c = false <->
  (N_of_ascii c < N_of_ascii lo \/ N_of_ascii hi < N_of_ascii c)%N.
Proof. unfold in_range. rewrite andb_false_iff, !N.leb_gt. done. Qed.

Lemma ascii_eqb_true a c : Ascii.eqb a c = true <-> N_of_ascii a = N_of_ascii c.
Proof. rewrite ascii_eqb_N. apply N.eqb_eq. Qed.

Lemma ascii_eqb_false a c : Ascii.eqb a c = false <-> N_of_ascii a <> N_of_ascii c.
Proof. rewrite ascii_eqb_N. apply N.eqb_neq. Qed.

End char_tests.

(** turn a decided test into arithmetic on character codes *)
Ltac test_fact E :=
  unfold re.is_digit, re.in_range in E;
  rewrite ?andb_true_iff, ?andb_false_iff, ?N.leb_le, ?N.leb_gt,
    ?Z.leb_le, ?Z.leb_gt, ?ascii_eqb_true, ?ascii_eqb_false in E;
  cbn in E.

(** case analysis on the tests of the goal, dropping the impossible
    branches *)
Ltac case_tests :=
  repeat (cbn [re.run mbind option_bind];
          match goal with
          | |- context [if ?b then _ else _] =>
              let E := fresh "E" in
              destruct b eqn:E; test_fact E; try (exfalso; lia)
          end).

Section strict_dates.
Import re _strptime.

Lemma length_app pre rest :
  String.length (pre +:+ rest) = (String.length pre + String.length rest)%nat.
Proof. induction pre as [|c pre IH]; simpl; [done|]. by f_equal. Qed.

Lemma consumed_app pre rest : consumed (pre +:+ rest) rest = pre.
Proof.
  unfold consumed. rewrite length_app.
  replace (String.length pre + String.length rest - String.length rest)%nat
    with (String.length pre) by lia.
  induction pre as [|c pre IH]; simpl.
  - by destruct rest.
  - by f_equal.
Qed.

Lemma consumed_2 a b rest :
  consumed (String a (String b rest)) rest = String a (String b "").
Proof. exact (consumed_app (String a (String b "")) rest). Qed.

Lemma consumed_4 a b c d rest :
  consumed (String a (String b (String c (String d rest)))) rest =
  String a (String b (String c (String d ""))).
Proof. exact (consumed_app (String a (String b (String c (String d "")))) rest). Qed.

Lemma run_Y {A} y1 y2 y3 y4 rest g (k : string -> gmap string string -> option A) :
  is_digit y1 = true -> is_digit y2 = true ->
  is_digit y3 = true -> is_digit y4 = true ->
  run rx_Y (String y1 (String y2 (String y3 (String y4 rest)))) g k =
  k rest (<["Y" := String y1 (String y2 (String y3 (String y4 ""))) ]> g).
Proof.
  intros H1 H2 H3 H4. cbn [run rx_Y]. rewrite H1, H2, H3, H4.
  by rewrite consumed_4.
Qed.

Lemma run_m2 {A} m1 m2 rest g (k : string -> gmap string string -> option A) a :
  month2 m1 m2 ->
  k rest (<["m" := String m1 (String m2 "")]> g) = Some a ->
  run rx_m (String m1 (String m2 rest)) g k = Some a.
Proof.
  intros Hm Hk. cbn [run rx_m].
  rewrite consumed_2, Hk.
  destruct Hm as [[H1 H2]|[H1 H2]]; case_tests; reflexivity.
Qed.

Lemma run_d2 {A} d1 d2 rest g (k : string -> gmap string string -> option A) a :
  day2 d1 d2 ->
  k rest (<["d" := String d1 (String d2 "")]> g) = Some a ->
  run rx_d (String d1 (String d2 rest)) g k = Some a.
Proof.
  intros Hd Hk. cbn [run rx_d].
  rewrite consumed_2, Hk.
  destruct Hd as [[H1 H2]|[[H1 H2]|[H1 H2]]]; case_tests; reflexivity.
Qed.


Lemma digit_Some c v :
  spec.digit c = Some v ->
  (48 <= N_of_ascii c <= 57)%N /\ v = Z.of_N (N_of_ascii c) - 48.
Proof.
  unfold spec.digit.
  destruct (_ && _)%N eqn:E; [|done]. intros [= <-].
  apply andb_true_iff in E as [?%N.leb_le ?%N.leb_le]. done.
Qed.

Lemma is_digit_code c : (48 <= N_of_ascii c <= 57)%N -> is_digit c = true.
Proof. intros H. by apply in_range_true. Qed.

Lemma int_2 c1 c2 :
  (48 <= N_of_ascii c1 <= 57)%N -> (48 <= N_of_ascii c2 <= 57)%N ->
  int (String c1 (String c2 "")) =
  Ok (10 * (Z.of_N (N_of_ascii c1) - 48) + (Z.of_N (N_of_ascii c2) - 48)).
Proof.
  intros H1 H2. unfold int. cbn [lstrip].
  assert (Ascii.eqb c1 " " = false) as -> by (apply ascii_eqb_false; cbn; lia).
  cbn [digits_value]. rewrite !is_digit_code by done.
  f_equal. lia.
Qed.

Lemma int_4 c1 c2 c3 c4 :
  (48 <= N_of_ascii c1 <= 57)%N -> (48 <= N_of_ascii c2 <= 57)%N ->
  (48 <= N_of_ascii c3 <= 57)%N -> (48 <= N_of_ascii c4 <= 57)%N ->
  int (String c1 (String c2 (String c3 (String c4 "")))) =
  Ok (1000 * (Z.of_N (N_of_ascii c1) - 48) + 100 * (Z.of_N (N_of_ascii c2) - 48)
      + 10 * (Z.of_N (N_of_ascii c3) - 48) + (Z.of_N (N_of_ascii c4) - 48)).
Proof.
  intros H1 H2 H3 H4. unfold int. cbn [lstrip].
  assert (Ascii.eqb c1 " " = false) as -> by (apply ascii_eqb_false; cbn; lia).
  cbn [digits_value]. rewrite !is_digit_code by done.
  f_equal. lia.
Qed.

(** Every strict [YYYY-MM-DD] date is read by [strptime], as the same
    day. *)
Lemma strptime_strict s exam :
  spec.strict_ymd s = Some exam -> strptime s = Ok exam.
Proof.
  unfold spec.strict_ymd.
  destruct s as [|y1 [|y2 [|y3 [|y4 [|h1 [|m1 [|m2 [|h2 [|d1 [|d2 [|]]]]]]]]]]];
    try done.
  destruct (spec.digit y1) as [a|] eqn:Ha; [|done].
  destruct (spec.digit y2) as [b|] eqn:Hb; [|done].
  destruct (spec.digit y3) as [c|] eqn:Hc; [|done].
  destruct (spec.digit y4) as [d|] eqn:Hd; [|done].
  destruct (spec.digit m1) as [e|] eqn:He; [|done].
  destruct (spec.digit m2) as [f|] eqn:Hf; [|done].
  destruct (spec.digit d1) as [g|] eqn:Hg; [|done].
  destruct (spec.digit d2) as [h|] eqn:Hh; [|done].
  cbn [mbind option_bind].
  apply digit_Some in Ha as [Ra ->], Hb as [Rb ->], Hc as [Rc ->],
    Hd as [Rd ->], He as [Re ->], Hf as [Rf ->], Hg as [Rg ->], Hh as [Rh ->].
  destruct (Ascii.eqb h1 "-") eqn:E1; [|done].
  destruct (Ascii.eqb h2 "-") eqn:E2; [|done].
  destruct (datetime.date_fields_ok _ _ _) eqn:Hok; [|done].
  cbn [andb]. intros [= <-].
  apply Ascii.eqb_eq in E1, E2. subst h1 h2.
  pose proof Hok as Hok'. apply date_fields_ok_spec in Hok' as (Hy & Hm & Hday).
  match type of Hday with
  | _ <= _ <= datetime._days_in_month ?y ?m =>
      pose proof (days_in_month_bounds y m Hm) as Hdim
  end.
  assert (rmatch format_regex
            (String y1 (String y2 (String y3 (String y4 (String "-"
              (String m1 (String m2 (String "-" (String d1 (String d2 "")))))))))) =
          Some ("", <["d" := String d1 (String d2 "")]>
                      (<["m" := String m1 (String m2 "")]>
                         (<["Y" := String y1 (String y2 (String y3 (String y4 "")))]> ∅))))
    as Hmatch.
  { unfold rmatch, format_regex. cbn [run].
    rewrite run_Y by (by apply is_digit_code).
    cbn [Ascii.eqb Bool.eqb].
    apply run_m2; [unfold month2; lia|].
    cbn [run Ascii.eqb Bool.eqb].
    apply run_d2; [unfold day2; lia|]. reflexivity. }
  unfold strptime. rewrite Hmatch. cbn [String.eqb negb].
  unfold getitem.
  repeat first [rewrite lookup_insert_eq | rewrite lookup_insert_ne by done].
  unfold mbind, result_bind.
  rewrite int_4 by done. rewrite !int_2 by done.
  unfold datetime.new. rewrite Hok. reflexivity.
Qed.

End strict_dates.

(** ** The language [strptime] accepts *)

Section lenient_facts.
Import re _strptime.

Lemma run_m_eq {A} s g (k : string -> gmap string string -> option A) :
  hyphen_next k ->
  run rx_m s g k =
  match lenient.month_field s with
  | Some (_, rest) => k rest (<["m" := consumed s rest]> g)
  | None => None
  end.
Proof.
  intros Hk.
  destruct s as [|m1 [|m2 rest]]; cbn [run rx_m lenient.month_field]; unfold spec.digit.
  - reflexivity.
  - cbv zeta. case_tests.
    all: repeat match goal with
         | |- context [_ (String ?c ?r) ?g'] =>
             rewrite (Hk (String c r) g')
               by (intros ? [= Hc _]; rewrite Hc in *; cbn in *; lia)
         end.
    all: try reflexivity.
    all: repeat match goal with
         | |- context [match ?x with Some _ => _ | None => _ end] => destruct x
         end; try reflexivity.
  - cbv zeta. case_tests.
    all: repeat match goal with
         | |- context [_ (String ?c ?r) ?g'] =>
             rewrite (Hk (String c r) g')
               by (intros ? [= Hc _]; rewrite Hc in *; cbn in *; lia)
         end.
    all: try reflexivity.
    all: repeat match goal with
         | |- context [match ?x with Some _ => _ | None => _ end] => destruct x
         end; try reflexivity.
Qed.


Lemma run_d_eq s g :
  run rx_d s g (fun rest g' => Some (rest, g')) =
  match lenient.day_field s with
  | Some (_, rest) => Some (rest, <["d" := consumed s rest]> g)
  | None => None
  end.
Proof.
  destruct s as [|d1 [|d2 rest]]; cbn [run rx_d lenient.day_field]; unfold spec.digit.
  - reflexivity.
  - cbv zeta. case_tests; reflexivity.
  - cbv zeta. case_tests; reflexivity.
Qed.

Lemma hyphen_then {A} (r : regex) (k : string -> gmap string string -> option A) :
  hyphen_next (fun s g => run (Cat (Chr "-") r) s g k).
Proof.
  intros s g Hs. cbn [run].
  destruct s as [|c rest]; [done|].
  destruct (Ascii.eqb_spec "-" c) as [<-|]; [|done].
  by destruct (Hs rest).
Qed.

Lemma ascii_code_inj a c : N_of_ascii a = N_of_ascii c -> a = c.
Proof.
  intros H. rewrite <- (ascii_N_embedding a), <- (ascii_N_embedding c). by rewrite H.
Qed.

Lemma consumed_1 a rest : consumed (String a rest) rest = String a "".
Proof. exact (consumed_app (String a "") rest). Qed.

Lemma int_1 c :
  (49 <= N_of_ascii c <= 57)%N -> int (String c "") = Ok (Z.of_N (N_of_ascii c) - 48).
Proof.
  intros H. unfold int. cbn [lstrip].
  assert (Ascii.eqb c " " = false) as -> by (apply ascii_eqb_false; cbn; lia).
  cbn [digits_value]. rewrite is_digit_code by lia.
  f_equal. lia.
Qed.

Lemma int_blank c :
  (49 <= N_of_ascii c <= 57)%N ->
  int (String " " (String c "")) = Ok (Z.of_N (N_of_ascii c) - 48).
Proof.
  intros H. unfold int. cbn [lstrip Ascii.eqb Bool.eqb].
  assert (Ascii.eqb c " " = false) as -> by (apply ascii_eqb_false; cbn; lia).
  cbn [digits_value]. rewrite is_digit_code by lia.
  f_equal. lia.
Qed.

Lemma month_field_int s v rest :
  lenient.month_field s = Some (v, rest) -> int (consumed s rest) = Ok v.
Proof.
  destruct s as [|m1 [|m2 rest2]]; cbn [lenient.month_field]; unfold spec.digit;
    cbv zeta; [done| |].
  - case_tests; try done. intros [= <- <-].
    rewrite consumed_1. apply int_1. lia.
  - case_tests; try done; intros [= <- <-].
    + rewrite consumed_2. rewrite int_2 by lia. f_equal.
    + rewrite consumed_1. apply int_1. lia.
    + rewrite consumed_1. apply int_1. lia.
Qed.

Lemma day_field_int s v rest :
  lenient.day_field s = Some (v, rest) -> int (consumed s rest) = Ok v.
Proof.
  destruct s as [|d1 [|d2 rest2]]; cbn [lenient.day_field]; unfold spec.digit;
    cbv zeta; [done| |].
  - case_tests; try done. intros [= <- <-].
    rewrite consumed_1. apply int_1. lia.
  - case_tests; try done; intros [= <- <-];
      first [ rewrite consumed_1; apply int_1; lia
            | rewrite consumed_2; rewrite int_2 by lia; f_equal
            | idtac ].
  assert (d1 = " "%char) as -> by (apply ascii_code_inj; cbn; lia).
  rewrite consumed_2. apply int_blank. lia.
Qed.


Lemma run_Cat {A} r1 r2 s g (k : string -> gmap string string -> option A) :
  run (Cat r1 r2) s g k = run r1 s g (fun s' g' => run r2 s' g' k).
Proof. reflexivity. Qed.

Lemma run_hyphen {A} r s g (k : string -> gmap string string -> option A) :
  run (Cat (Chr "-") r) s g k =
  match s with
  | String c rest => if Ascii.eqb c "-" then run r rest g k else None
  | EmptyString => None
  end.
Proof.
  destruct s as [|c rest]; [done|]. cbn [run].
  by rewrite (Ascii.eqb_sym "-" c).
Qed.

Lemma run_Y_eq {A} y1 y2 y3 y4 rest g (k : string -> gmap string string -> option A) :
  run rx_Y (String y1 (String y2 (String y3 (String y4 rest)))) g k =
  if is_digit y1 && is_digit y2 && is_digit y3 && is_digit y4
  then k rest (<["Y" := String y1 (String y2 (String y3 (String y4 ""))) ]> g)
  else None.
Proof.
  cbn [run rx_Y]. rewrite consumed_4.
  by destruct (is_digit y1), (is_digit y2), (is_digit y3), (is_digit y4).
Qed.

Lemma digit_is_digit c :
  spec.digit c = if is_digit c then Some (Z.of_N (N_of_ascii c) - 48) else None.
Proof. reflexivity. Qed.

Lemma is_digit_true c : is_digit c = true -> (48 <= N_of_ascii c <= 57)%N.
Proof. intros H. by apply in_range_true in H. Qed.

(** On text of code points below 256, what [strptime] reads with
    ['%Y-%m-%d'] is exactly: four digits, a hyphen, a month of one or
    two digits, a hyphen, a day of one or two digits or a blank and a
    digit, naming a day of the calendar. *)
Lemma strptime_lenient s : spec.strptime_ymd s = lenient.ymd s.
Proof.
  unfold spec.strptime_ymd, strptime, rmatch, format_regex.
  destruct s as [|y1 [|y2 [|y3 [|y4 [|h1 rest]]]]];
    try (cbn [run rx_Y lenient.ymd]; case_tests; reflexivity).
  rewrite run_Cat, run_Y_eq. cbn [lenient.ymd]. rewrite !digit_is_digit.
  destruct (is_digit y1) eqn:D1; [|done].
  destruct (is_digit y2) eqn:D2; [|done].
  destruct (is_digit y3) eqn:D3; [|done].
  destruct (is_digit y4) eqn:D4; [|done].
  apply is_digit_true in D1, D2, D3, D4.
  cbn [andb mbind option_bind]. rewrite run_hyphen.
  destruct (Ascii.eqb h1 "-"); [|done].
  rewrite run_Cat, (run_m_eq rest) by apply hyphen_then.
  destruct (lenient.month_field rest) as [[month rest3]|] eqn:Hm; [|done].
  cbn [mbind option_bind]. rewrite run_hyphen.
  destruct rest3 as [|h2 rest4]; [done|].
  destruct (Ascii.eqb h2 "-"); [|done].
  rewrite run_d_eq.
  destruct (lenient.day_field rest4) as [[day rest5]|] eqn:Hd; [|done].
  cbn [mbind option_bind].
  destruct (String.eqb rest5 ""); cbn [negb andb]; [|done].
  unfold getitem.
  repeat first [rewrite lookup_insert_eq | rewrite lookup_insert_ne by done].
  unfold mbind, result_bind.
  rewrite int_4 by done.
  rewrite (month_field_int _ _ _ Hm), (day_field_int _ _ _ Hd).
  unfold datetime.new. by destruct (datetime.date_fields_ok _ _ _).
Qed.

End lenient_facts.

(** ** The validator *)

Section validator_facts.

(** The validator never raises, and its answer is the four rules read
    over what [strptime] accepts. *)
Lemma validate_medical_exam_eq cfg now s :
  datetime.ok now = true ->
  validate_medical_exam cfg now s =
  Ok (spec.answer (spec.four_rules spec.strptime_ymd
                     (MEDICAL_EXAM_VALIDITY_DAYS cfg) now s)).
Proof.
  intros Hnow.
  unfold validate_medical_exam, spec.four_rules, spec.strptime_ymd.
  destruct (strptime_cases s) as [[msg ->]|(y & m & d & -> & Hd)]; [done|].
  destruct (sub_midnight now y m d Hnow Hd) as (delta & Hsub & Hdays).
  unfold mbind, result_bind. rewrite Hsub.
  cbn. rewrite Hdays. unfold spec.elapsed_days, datetime.toordinal at 2 4.
  cbn [datetime.year datetime.month datetime.day].
  destruct (_ <? 0); [done|].
  rewrite Z.gtb_ltb. destruct (_ <? _); done.
Qed.


(** the malformed strings the specification names are answered with the
    format reason, and the looser spellings [strptime] reads are not *)
Example validate_malformed :
  validate_medical_exam cfg180 now_2024_06_01 "2024-13-40" = Ok (false, "Invalid date format") /\
  validate_medical_exam cfg180 now_2024_06_01 "not-a-date" = Ok (false, "Invalid date format") /\
  validate_medical_exam cfg180 now_2024_06_01 "2023-02-29" = Ok (false, "Invalid date format") /\
  validate_medical_exam cfg180 now_2024_06_01 "2024-01-011" = Ok (false, "Invalid date format").
Proof. split_and!; reflexivity. Qed.

Example validate_unpadded :
  validate_medical_exam cfg180 now_2024_06_01 "2024-1-5" = Ok (true, "Medical exam is valid") /\
  validate_medical_exam cfg180 now_2024_06_01 "2024-01- 5" = Ok (true, "Medical exam is valid") /\
  validate_medical_exam cfg180 now_2024_06_01 "2024-6-2" =
    Ok (false, "Medical exam date cannot be in the future").
Proof. split_and!; reflexivity. Qed.

End validator_facts.

(** C1, as stated: the validator is the four rules read over the strict
    [YYYY-MM-DD] format.  This fails: ["2024-1-5"] is not strict
    [YYYY-MM-DD], so the four rules answer with the format reason, while
    [strptime] reads it as 5 January 2024 and the validator, 148 days
    later and with a 180-day window, answers valid. *)
Lemma validate_medical_exam_strict_refuted :
  ~ (forall cfg now s,
       datetime.ok now = true ->
       validate_medical_exam cfg now s =
       Ok (spec.answer (spec.four_rules spec.strict_ymd
                          (MEDICAL_EXAM_VALIDITY_DAYS cfg) now s))).
Proof.
  intros H.
  specialize (H cfg180 now_2024_06_01 "2024-1-5" eq_refl).
  vm_compute in H. discriminate H.
Qed.

(** C1, amended: for every string, window and valid current time the
    validator returns without raising, and its answer is the four rules
    in order, where a string "parses" when [strptime] reads it with the
    format ['%Y-%m-%d'].  That reading is not strict: it takes every
    text made of four digits, a hyphen, a month of one or two digits, a
    hyphen and a day of one or two digits (or a blank and a digit) that
    names a day of the calendar, and so every strict [YYYY-MM-DD] date,
    as the same day. *)
Theorem validate_medical_exam_four_rules cfg now s :
  datetime.ok now = true ->
  validate_medical_exam cfg now s =
    Ok (spec.answer (spec.four_rules spec.strptime_ymd
                       (MEDICAL_EXAM_VALIDITY_DAYS cfg) now s)) /\
  (forall exam, lenient.ymd s = Some exam -> spec.strptime_ymd s = Some exam) /\
  (forall exam, spec.strict_ymd s = Some exam -> lenient.ymd s = Some exam).
Proof.
  intros Hnow. split_and!.
  - by apply validate_medical_exam_eq.
  - intros exam H. by rewrite strptime_lenient.
  - intros exam H. rewrite <- strptime_lenient.
    unfold spec.strptime_ymd. by rewrite (strptime_strict s exam H).
Qed.

Lemma validate_medical_exam_four_rules_witness :
  validate_medical_exam cfg180 now_2024_06_01 "2024-01- 5" =
    Ok (spec.answer (spec.four_rules spec.strptime_ymd 180 now_2024_06_01 "2024-01- 5")).
Proof.
  exact (proj1 (validate_medical_exam_four_rules cfg180 now_2024_06_01
                  "2024-01- 5" eq_refl)).
Defined.

(** C2: every strict [YYYY-MM-DD] exam date that lies between 0 and the
    validity window (both inclusive) days before the current date is
    answered valid; and with a 180-day window on 2024-06-01, at any time
    of day, 2024-01-01 is 152 days back and valid, 2023-01-01 is outside
    the window and 2024-07-01 is in the future. *)
Theorem validate_medical_exam_within_window :
  (forall cfg now s exam,
     datetime.ok now = true ->
     spec.strict_ymd s = Some exam ->
     0 <= spec.elapsed_days now exam <= MEDICAL_EXAM_VALIDITY_DAYS cfg ->
     validate_medical_exam cfg now s = Ok (true, "Medical exam is valid")) /\
  (forall name required hh mm ss us,
     datetime.time_fields_ok hh mm ss us = true ->
     let cfg := Build_config name required 180 in
     let now := datetime.mk 2024 6 1 hh mm ss us in
     (exists exam, spec.strict_ymd "2024-01-01" = Some exam /\
                   spec.elapsed_days now exam = 152) /\
     validate_medical_exam cfg now "2024-01-01" = Ok (true, "Medical exam is valid") /\
     validate_medical_exam cfg now "2023-01-01" =
       Ok (false, "Medical exam must be within the last 180 days") /\
     validate_medical_exam cfg now "2024-07-01" =
       Ok (false, "Medical exam date cannot be in the future")).
Proof.
  split.
  - intros cfg now s exam Hnow Hs Hw.
    rewrite validate_medical_exam_eq by done.
    unfold spec.four_rules, spec.strptime_ymd.
    rewrite (strptime_strict s exam Hs). cbn zeta.
    destruct (Z.ltb_spec (spec.elapsed_days now exam) 0); [lia|].
    destruct (Z.ltb_spec (MEDICAL_EXAM_VALIDITY_DAYS cfg) (spec.elapsed_days now exam));
      [lia|done].
  - intros name required hh mm ss us Ht cfg now.
    assert (datetime.ok now = true) as Hnow.
    { unfold datetime.ok, now. cbn [datetime.year datetime.month datetime.day
        datetime.hour datetime.minute datetime.second datetime.microsecond].
      by rewrite Ht. }
    split; [eexists; split; reflexivity|].
    rewrite !validate_medical_exam_eq by done.
    split_and!; reflexivity.
Qed.

Lemma validate_medical_exam_within_window_witness :
  validate_medical_exam cfg180 now_2024_06_01 "2024-03-15" =
    Ok (true, "Medical exam is valid") /\
  validate_medical_exam cfg180 now_2024_06_01 "2023-12-04" =
    Ok (true, "Medical exam is valid") /\
  validate_medical_exam cfg180 now_2024_06_01 "2024-06-01" =
    Ok (true, "Medical exam is valid").
Proof.
  split_and!.
  - apply (proj1 validate_medical_exam_within_window cfg180 now_2024_06_01
             "2024-03-15" (datetime.mk 2024 3 15 0 0 0 0));
      [reflexivity | reflexivity | vm_compute; split; discriminate].
  - apply (proj1 validate_medical_exam_within_window cfg180 now_2024_06_01
             "2023-12-04" (datetime.mk 2023 12 4 0 0 0 0));
      [reflexivity | reflexivity | vm_compute; split; discriminate].
  - apply (proj1 validate_medical_exam_within_window cfg180 now_2024_06_01
             "2024-06-01" (datetime.mk 2024 6 1 0 0 0 0));
      [reflexivity | reflexivity | vm_compute; split; discriminate].
Defined.

(** C10: on every string the validator returns a (flag, message) pair
    and raises nothing. *)
Theorem validate_medical_exam_total cfg now s :
  datetime.ok now = true ->
  exists (is_valid : bool) (message : string),
    validate_medical_exam cfg now s = Ok (is_valid, message).
Proof.
  intros Hnow. rewrite validate_medical_exam_eq by done.
  destruct (spec.answer _) as [is_valid message]. eauto.
Qed.

Lemma validate_medical_exam_total_witness :
  exists (is_valid : bool) (message : string),
    validate_medical_exam cfg180 now_2024_06_01 "not-a-date" = Ok (is_valid, message).
Proof.
  apply (validate_medical_exam_total cfg180 now_2024_06_01 "not-a-date").
  reflexivity.
Defined.

(** ** The creation handler *)

Section create_facts.

Lemma first_missing_None data fields :
  first_missing data fields = None <-> Forall (present data) fields.
Proof.
  induction fields as [|f fields IH]; cbn [first_missing].
  - split; [constructor|done].
  - rewrite Forall_cons. unfold present at 1.
    destruct (truthy (get data f)); cbn [negb]; [|by split; [|intros []]].
    rewrite IH. tauto.
Qed.

Lemma first_missing_Some data fields field :
  first_missing data fields = Some field ->
  exists before after,
    fields = (before ++ field :: after)%list /\
    Forall (present data) before /\
    truthy (get data field) = false.
Proof.
  induction fields as [|f fields IH]; cbn [first_missing]; [done|].
  destruct (truthy (get data f)) eqn:E; cbn [negb].
  - intros (before & after & -> & Hb & Hf)%IH.
    exists (f :: before), after. split_and!; [done| |done].
    by constructor.
  - intros [= <-]. exists [], fields. split_and!; [done|constructor|done].
Qed.

Lemma first_missing_is_Some data fields :
  (exists f, f ∈ fields /\ truthy (get data f) = false) ->
  exists field, first_missing data fields = Some field.
Proof.
  intros (f & Hin & Hf).
  destruct (first_missing data fields) as [field|] eqn:E; [eauto|].
  apply first_missing_None in E. rewrite Forall_forall in E.
  specialize (E f Hin). unfold present in E. congruence.
Qed.

Lemma getitem_present data field :
  present data field -> getitem data field = Ok (get_default data field "").
Proof.
  unfold present, getitem, get_default.
  by destruct (get data field).
Qed.

Lemma insert_values_present env data appointment_id :
  Forall (present data) required_fields ->
  insert_values env data appointment_id = Ok (stored_row env data appointment_id).
Proof.
  unfold required_fields. rewrite !Forall_cons.
  intros (H1 & H2 & H3 & H4 & H5 & H6 & _).
  unfold insert_values.
  rewrite !getitem_present by done. reflexivity.
Qed.

Lemma get_db_insert_fresh (row : appointment.t) (db : table) :
  db !! appointment.id row = None ->
  get_db (r ← eval (Ok row); execute_insert r) db =
  (Ok tt, <[appointment.id row := row]> db).
Proof.
  intros Hfresh. unfold get_db, yield, connect, mbind, sql_bind, eval, execute_insert.
  cbn. by rewrite Hfresh.
Qed.

(** a request that passes both checks and draws an unused id is
    stored and answered with the redirect to its detail page *)
Lemma create_appointment_accepted cfg env data (db : table) :
  Forall (present data) required_fields ->
  exam_rejection cfg env data = Ok None ->
  db !! uuid4 env = None ->
  create_appointment cfg env data db =
  (RedirectResponse "appointment_detail" (uuid4 env),
   <[uuid4 env := stored_row env data (uuid4 env)]> db).
Proof.
  intros Hreq Hexam Hfresh.
  unfold create_appointment, create_appointment_try.
  apply first_missing_None in Hreq as Hnone. rewrite Hnone, Hexam.
  rewrite insert_values_present by done.
  rewrite (get_db_insert_fresh (stored_row env data (uuid4 env))) by done.
  reflexivity.
Qed.

Lemma appointment_detail_eq cfg appointment_id (db : table) :
  appointment_detail cfg appointment_id db =
  match db !! appointment_id with
  | None => (Ok (TextResponse "Appointment not found" 404), db)
  | Some appointment =>
      (Ok (TemplateResponse "appointment_detail.html"
             [("appointment", CRow appointment);
              ("embassy_name", CStr (EMBASSY_NAME cfg))] 200), db)
  end.
Proof.
  unfold appointment_detail, get_db, yield, connect, select_by_id. cbn.
  by destruct (db !! appointment_id).
Qed.


(** a generated id that is already a key makes the INSERT fail: the
    transaction is rolled back, the handler catches the exception and
    answers 500 *)
Lemma create_appointment_duplicate_id cfg env data (db : table) :
  Forall (present data) required_fields ->
  exam_rejection cfg env data = Ok None ->
  is_Some (db !! uuid4 env) ->
  create_appointment cfg env data db =
  (TemplateResponse "index.html"
     [("error", CStr "An error occurred while creating the appointment");
      ("embassy_name", CStr (EMBASSY_NAME cfg));
      ("medical_required", CBool (MEDICAL_EXAM_REQUIRED cfg))] 500, db).
Proof.
  intros Hreq Hexam [old Hold].
  unfold create_appointment, create_appointment_try.
  apply first_missing_None in Hreq as Hnone. rewrite Hnone, Hexam.
  rewrite insert_values_present by done.
  unfold get_db, yield, connect, mbind, sql_bind, eval, execute_insert. cbn.
  by rewrite Hold.
Qed.

(** whatever the request, the table after the handler is the table
    before it, or the table before it with one complete new row under an
    id that was unused *)
Lemma create_appointment_all_or_nothing cfg env data (db : table) :
  (create_appointment cfg env data db).2 = db \/
  (db !! uuid4 env = None /\
   (create_appointment cfg env data db).2 =
     <[uuid4 env := stored_row env data (uuid4 env)]> db).
Proof.
  unfold create_appointment, create_appointment_try.
  destruct (first_missing data required_fields) eqn:Hm; [by left|].
  destruct (exam_rejection cfg env data) as [[message|]|e]; [by left| |by left].
  apply first_missing_None in Hm. rewrite insert_values_present by done.
  unfold get_db, yield, connect, mbind, sql_bind, eval, execute_insert. cbn.
  destruct (db !! uuid4 env) eqn:Hid; [by left|by right].
Qed.

End create_facts.

(** C3: a request with the six required fields present and non-empty and
    an exam date the validator accepts is stored (the generated id being
    unused) and answered with the redirect to the new id; fetching that
    id finds the record, with status "confirmed" and the exam marked
    verified. *)
Theorem create_appointment_then_fetch cfg env data (db : table) exam_date_str message :
  Forall (present data) required_fields ->
  get data "medical_exam_date" = Some exam_date_str ->
  validate_medical_exam cfg (now env) exam_date_str = Ok (true, message) ->
  db !! uuid4 env = None ->
  exists (db' : table) (row : appointment.t),
    create_appointment cfg env data db =
      (RedirectResponse "appointment_detail" (uuid4 env), db') /\
    appointment_detail cfg (uuid4 env) db' =
      (Ok (TemplateResponse "appointment_detail.html"
             [("appointment", CRow row);
              ("embassy_name", CStr (EMBASSY_NAME cfg))] 200), db') /\
    appointment.id row = uuid4 env /\
    appointment.status row = "confirmed" /\
    appointment.medical_exam_verified row = 1.
Proof.
  intros Hreq Hget Hvalid Hfresh.
  exists (<[uuid4 env := stored_row env data (uuid4 env)]> db),
         (stored_row env data (uuid4 env)).
  split_and!; try reflexivity.
  - apply create_appointment_accepted; [done| |done].
    unfold exam_rejection, getitem. rewrite Hget.
    destruct (MEDICAL_EXAM_REQUIRED cfg); [|done].
    unfold mbind, result_bind. by rewrite Hvalid.
  - rewrite appointment_detail_eq. by rewrite lookup_insert_eq.
Qed.

Lemma create_appointment_then_fetch_witness :
  exists (db' : table) (row : appointment.t),
    create_appointment cfg180 env_sample form_jane ∅ =
      (RedirectResponse "appointment_detail" (uuid4 env_sample), db') /\
    appointment_detail cfg180 (uuid4 env_sample) db' =
      (Ok (TemplateResponse "appointment_detail.html"
             [("appointment", CRow row);
              ("embassy_name", CStr (EMBASSY_NAME cfg180))] 200), db') /\
    appointment.id row = uuid4 env_sample /\
    appointment.status row = "confirmed" /\
    appointment.medical_exam_verified row = 1.
Proof.
  apply (create_appointment_then_fetch cfg180 env_sample form_jane ∅
           "2024-06-01" "Medical exam is valid").
  - unfold required_fields, present. repeat constructor.
  - reflexivity.
  - reflexivity.
  - reflexivity.
Defined.

(** C4: when a required field is absent or empty, the answer is the
    400 JSON error naming the first such field in the order of
    [required_fields], and the table is as before. *)
Theorem create_appointment_missing_field cfg env data (db : table) :
  (exists f, f ∈ required_fields /\ truthy (get data f) = false) ->
  exists before field after,
    required_fields = (before ++ field :: after)%list /\
    Forall (present data) before /\
    truthy (get data field) = false /\
    create_appointment cfg env data db =
      (JsonResponse [("error", "Missing required field: " +:+ field)] 400, db).
Proof.
  intros [field Hfirst]%first_missing_is_Some.
  destruct (first_missing_Some _ _ _ Hfirst) as (before & after & Hsplit & Hb & Hf).
  exists before, field, after. split_and!; try done.
  unfold create_appointment, create_appointment_try. by rewrite Hfirst.
Qed.

Lemma create_appointment_missing_field_witness :
  exists before field after,
    required_fields = (before ++ field :: after)%list /\
    Forall (present (("email", "") :: form_jane)) before /\
    truthy (get (("email", "") :: form_jane) field) = false /\
    create_appointment cfg180 env_sample (("email", "") :: form_jane) ∅ =
      (JsonResponse [("error", "Missing required field: " +:+ field)] 400, ∅).
Proof.
  apply (create_appointment_missing_field cfg180 env_sample
           (("email", "") :: form_jane) ∅).
  exists "email". split; [|reflexivity].
  unfold required_fields. apply list_elem_of_In. simpl. tauto.
Defined.

(** C5: with the medical-exam requirement on and the six required
    fields present, an exam date the validator rejects is answered with
    the 400 form page carrying the validator's message, and the table is
    as before. *)
Theorem create_appointment_rejected_exam cfg env data (db : table) exam_date_str message :
  MEDICAL_EXAM_REQUIRED cfg = true ->
  Forall (present data) required_fields ->
  get data "medical_exam_date" = Some exam_date_str ->
  validate_medical_exam cfg (now env) exam_date_str = Ok (false, message) ->
  create_appointment cfg env data db =
    (TemplateResponse "index.html"
       [("error", CStr message);
        ("embassy_name", CStr (EMBASSY_NAME cfg));
        ("medical_required", CBool true);
        ("form_data", CForm data)] 400, db).
Proof.
  intros Hflag Hreq Hget Hinvalid.
  unfold create_appointment, create_appointment_try.
  apply first_missing_None in Hreq as ->.
  unfold exam_rejection, getitem. rewrite Hflag, Hget.
  unfold mbind, result_bind. rewrite Hinvalid. reflexivity.
Qed.

Lemma create_appointment_rejected_exam_witness :
  create_appointment cfg180 env_sample (("medical_exam_date", "2023-01-01") :: form_jane) ∅ =
    (TemplateResponse "index.html"
       [("error", CStr "Medical exam must be within the last 180 days");
        ("embassy_name", CStr (EMBASSY_NAME cfg180));
        ("medical_required", CBool true);
        ("form_data", CForm (("medical_exam_date", "2023-01-01") :: form_jane))] 400, ∅).
Proof.
  apply (create_appointment_rejected_exam cfg180 env_sample
           (("medical_exam_date", "2023-01-01") :: form_jane) ∅ "2023-01-01").
  - reflexivity.
  - unfold required_fields, present. repeat constructor.
  - reflexivity.
  - reflexivity.
Defined.

(** ** The transaction manager *)

(** C6: a write runs in a transaction.  If the statements of the block
    raise, whatever they had written so far is rolled back (the table is
    exactly as before) and the exception is re-raised to the caller; if
    they complete, what they wrote is committed. *)
Theorem get_db_commit_or_rollback {A} (body : sql A) (db : table) :
  (forall e partial,
     body db = (Raise e, partial) -> get_db body db = (Raise e, db)) /\
  (forall a written,
     body db = (Ok a, written) -> get_db body db = (Ok a, written)).
Proof.
  unfold get_db, yield, connect, commit, rollback, close. cbn.
  split; intros ? ? ->; reflexivity.
Qed.

Lemma get_db_commit_or_rollback_witness :
  get_db (execute_insert row_sample ≫= λ _, execute_insert row_sample) ∅ =
    (Raise (IntegrityError "UNIQUE constraint failed: appointments.id"), ∅) /\
  get_db (execute_insert row_sample) ∅ =
    (Ok tt, <[appointment.id row_sample := row_sample]> ∅).
Proof.
  split.
  - apply (proj1 (get_db_commit_or_rollback
                    (execute_insert row_sample ≫= λ _, execute_insert row_sample) ∅)
             _ (<[appointment.id row_sample := row_sample]> ∅)).
    reflexivity.
  - apply (proj2 (get_db_commit_or_rollback (execute_insert row_sample) ∅)).
    reflexivity.
Defined.

(** ** Fetching one record *)

(** C8: fetching an id that is not in the table answers 404 with the
    plain text "Appointment not found"; fetching an id that is in the
    table answers 200 with the detail page of its record. *)
Theorem appointment_detail_found_or_404 cfg appointment_id (db : table) :
  (db !! appointment_id = None ->
   appointment_detail cfg appointment_id db =
     (Ok (TextResponse "Appointment not found" 404), db)) /\
  (forall row, db !! appointment_id = Some row ->
   appointment_detail cfg appointment_id db =
     (Ok (TemplateResponse "appointment_detail.html"
            [("appointment", CRow row);
             ("embassy_name", CStr (EMBASSY_NAME cfg))] 200), db)).
Proof.
  rewrite appointment_detail_eq. split.
  - by intros ->.
  - by intros row ->.
Qed.

Lemma appointment_detail_found_or_404_witness :
  appointment_detail cfg180 "no-such-id" (<[appointment.id row_sample := row_sample]> ∅) =
    (Ok (TextResponse "Appointment not found" 404),
     <[appointment.id row_sample := row_sample]> ∅) /\
  appointment_detail cfg180 (appointment.id row_sample)
      (<[appointment.id row_sample := row_sample]> ∅) =
    (Ok (TemplateResponse "appointment_detail.html"
           [("appointment", CRow row_sample);
            ("embassy_name", CStr (EMBASSY_NAME cfg180))] 200),
     <[appointment.id row_sample := row_sample]> ∅).
Proof.
  split.
  - apply (proj1 (appointment_detail_found_or_404 cfg180 "no-such-id"
                    (<[appointment.id row_sample := row_sample]> ∅))).
    reflexivity.
  - apply (proj2 (appointment_detail_found_or_404 cfg180 (appointment.id row_sample)
                    (<[appointment.id row_sample := row_sample]> ∅))).
    reflexivity.
Defined.

(** ** Creation without the medical-exam requirement *)

(** C9: with the medical-exam requirement off, the exam date is not
    validated: whatever non-empty text the field holds, the request is
    stored (the generated id being unused) with that text unchanged as
    its exam date. *)
Theorem create_appointment_exam_unchecked cfg env data (db : table) exam_date_str :
  MEDICAL_EXAM_REQUIRED cfg = false ->
  Forall (present data) required_fields ->
  get data "medical_exam_date" = Some exam_date_str ->
  db !! uuid4 env = None ->
  exists (db' : table) (row : appointment.t),
    create_appointment cfg env data db =
      (RedirectResponse "appointment_detail" (uuid4 env), db') /\
    db' !! uuid4 env = Some row /\
    appointment.medical_exam_date row = exam_date_str.
Proof.
  intros Hflag Hreq Hget Hfresh.
  exists (<[uuid4 env := stored_row env data (uuid4 env)]> db),
         (stored_row env data (uuid4 env)).
  split_and!.
  - apply create_appointment_accepted; [done| |done].
    unfold exam_rejection. by rewrite Hflag.
  - by rewrite lookup_insert_eq.
  - cbn. unfold get_default. by rewrite Hget.
Qed.

Lemma create_appointment_exam_unchecked_witness :
  exists (db' : table) (row : appointment.t),
    create_appointment cfg_not_required env_sample
        (("medical_exam_date", "not-a-date") :: form_jane) ∅ =
      (RedirectResponse "appointment_detail" (uuid4 env_sample), db') /\
    db' !! uuid4 env_sample = Some row /\
    appointment.medical_exam_date row = "not-a-date".
Proof.
  apply (create_appointment_exam_unchecked cfg_not_required env_sample
           (("medical_exam_date", "not-a-date") :: form_jane) ∅ "not-a-date").
  - reflexivity.
  - unfold required_fields, present. repeat constructor.
  - reflexivity.
  - reflexivity.
Defined.

(** ** The listing *)

Section text_order.

Lemma ascii_compare_refl c : Ascii.compare c c = Eq.
Proof. apply N.compare_refl. Qed.

Lemma ascii_compare_lt a b : Ascii.compare a b = Lt <-> (N_of_ascii a < N_of_ascii b)%N.
Proof. unfold Ascii.compare. apply N.compare_lt_iff. Qed.

Lemma compare_refl s : String.compare s s = Eq.
Proof. induction s as [|c s IH]; simpl; [done|]. by rewrite ascii_compare_refl. Qed.

Lemma compare_eq a b : String.compare a b = Eq <-> a = b.
Proof. split; [apply String.compare_eq_iff | intros ->; apply compare_refl]. Qed.

Lemma compare_lt_trans a b c :
  String.compare a b = Lt -> String.compare b c = Lt -> String.compare a c = Lt.
Proof.
  revert b c. induction a as [|x a IH]; intros [|y b] [|z c]; simpl; try done.
  destruct (Ascii.compare x y) eqn:Exy; try done;
    destruct (Ascii.compare y z) eqn:Eyz; try done.
  - apply Ascii.compare_eq_iff in Exy, Eyz. subst.
    rewrite ascii_compare_refl. apply IH.
  - apply Ascii.compare_eq_iff in Exy. subst. by rewrite Eyz.
  - apply Ascii.compare_eq_iff in Eyz. subst. by rewrite Exy.
  - apply ascii_compare_lt in Exy. apply ascii_compare_lt in Eyz.
    assert (Ascii.compare x z = Lt) as ->; [|done].
    apply ascii_compare_lt. by apply N.lt_trans with (N_of_ascii y).
Qed.

Lemma compare_gt_lt a b : String.compare a b = Gt <-> String.compare b a = Lt.
Proof.
  rewrite (String.compare_antisym b a).
  destruct (String.compare a b); simpl; split; congruence.
Qed.

Lemma order_by_spec a b : placed_before a b <-> date_time_descending a b.
Proof.
  unfold placed_before, order_by, date_time_descending, text_lt.
  rewrite orb_true_iff, andb_true_iff, negb_true_iff.
  rewrite String.eqb_eq.
  destruct (String.compare (listed.appointment_date b) (listed.appointment_date a));
    destruct (String.compare (listed.appointment_time a) (listed.appointment_time b));
    intuition congruence.
Qed.

#[local] Instance date_time_descending_total : Total date_time_descending.
Proof.
  intros a b. unfold date_time_descending.
  destruct (String.compare (listed.appointment_date a) (listed.appointment_date b)) eqn:Ed.
  - apply compare_eq in Ed.
    destruct (String.compare (listed.appointment_time a) (listed.appointment_time b)) eqn:Et.
    + left. right. done.
    + right. right. split; [done|].
      apply compare_gt_lt in Et. congruence.
    + left. right. done.
  - right. left. done.
  - left. left. by apply compare_gt_lt.
Qed.

#[local] Instance date_time_descending_trans : Transitive date_time_descending.
Proof.
  intros a b c [Hab|[Hab Tab]] [Hbc|[Hbc Tbc]]; unfold date_time_descending.
  - left. eapply compare_lt_trans; eassumption.
  - left. by rewrite <- Hbc.
  - left. by rewrite Hab.
  - right. split; [congruence|].
    intros Hac.
    destruct (String.compare (listed.appointment_time b) (listed.appointment_time c)) eqn:E.
    + apply compare_eq in E. congruence.
    + done.
    + apply compare_gt_lt in E. apply Tab.
      eapply compare_lt_trans; eassumption.
Qed.

#[local] Instance placed_before_total : Total placed_before.
Proof. intros a b. rewrite !order_by_spec. apply date_time_descending_total. Qed.

#[local] Instance placed_before_trans : Transitive placed_before.
Proof. intros a b c. rewrite !order_by_spec. apply date_time_descending_trans. Qed.

Lemma select_all_ordered_sorted (rows : list listed.t) :
  StronglySorted date_time_descending (merge_sort placed_before rows).
Proof.
  pose proof (StronglySorted_merge_sort placed_before rows) as H.
  induction H as [|x l Hl IH Hx]; constructor; [done|].
  eapply Forall_impl; [exact Hx|]. intros y. apply order_by_spec.
Qed.

End text_order.

Section listed_entries.

Lemma of_row_shows row : shows (listed.of_row row) row.
Proof. unfold shows, listed.of_row. cbn. split_and!; reflexivity. Qed.

Lemma listed_rows_length (db : table) :
  length (merge_sort placed_before (listed.of_row <$> (map_to_list db).*2)) = size db.
Proof.
  rewrite merge_sort_Permutation, !length_fmap. apply length_map_to_list.
Qed.

Lemma listed_rows_elem_of (db : table) entry :
  entry ∈ merge_sort placed_before (listed.of_row <$> (map_to_list db).*2) ->
  exists appointment_id row, db !! appointment_id = Some row /\ shows entry row.
Proof.
  rewrite merge_sort_Permutation.
  intros (row & -> & ([appointment_id row'] & -> & Hin)%list_elem_of_fmap)%list_elem_of_fmap.
  exists appointment_id, row'. split; [by apply elem_of_map_to_list|apply of_row_shows].
Qed.

Lemma listed_rows_stored (db : table) appointment_id row :
  db !! appointment_id = Some row ->
  listed.of_row row ∈ merge_sort placed_before (listed.of_row <$> (map_to_list db).*2).
Proof.
  intros Hrow. rewrite merge_sort_Permutation.
  apply list_elem_of_fmap. exists row. split; [done|].
  apply list_elem_of_fmap. exists (appointment_id, row). split; [done|].
  by apply elem_of_map_to_list.
Qed.

End listed_entries.

(** C7: the listing answers with the stored records and nothing else:
    every stored row has an entry holding its own id, name, e-mail,
    passport number, appointment date and time, status, exam date and
    verified mark, every entry holds those values of a stored row, and
    there are as many entries as rows.  The entries are ordered by
    appointment date descending and, among equal dates, by appointment
    time descending, dates and times compared as text. *)
Theorem list_appointments_sorted cfg (db : table) :
  exists appointments,
    list_appointments cfg db =
      (Ok (TemplateResponse "appointments.html"
             [("appointments", CRows appointments);
              ("embassy_name", CStr (EMBASSY_NAME cfg))] 200), db) /\
    appointments ≡ₚ listed.of_row <$> (map_to_list db).*2 /\
    (forall appointment_id row,
       db !! appointment_id = Some row ->
       exists entry, entry ∈ appointments /\ shows entry row) /\
    (forall entry,
       entry ∈ appointments ->
       exists appointment_id row, db !! appointment_id = Some row /\ shows entry row) /\
    length appointments = size db /\
    StronglySorted date_time_descending appointments.
Proof.
  eexists. split_and!.
  - unfold list_appointments, get_db, yield, connect, select_all_ordered. cbn.
    reflexivity.
  - apply merge_sort_Permutation.
  - intros appointment_id row Hrow. exists (listed.of_row row).
    split; [by eapply listed_rows_stored|apply of_row_shows].
  - apply listed_rows_elem_of.
  - apply listed_rows_length.
  - apply select_all_ordered_sorted.
Qed.

Lemma list_appointments_sorted_witness :
  exists appointments,
    list_appointments cfg180 db_two =
      (Ok (TemplateResponse "appointments.html"
             [("appointments", CRows appointments);
              ("embassy_name", CStr (EMBASSY_NAME cfg180))] 200), db_two) /\
    appointments ≡ₚ listed.of_row <$> (map_to_list db_two).*2 /\
    (forall appointment_id row,
       db_two !! appointment_id = Some row ->
       exists entry, entry ∈ appointments /\ shows entry row) /\
    (forall entry,
       entry ∈ appointments ->
       exists appointment_id row, db_two !! appointment_id = Some row /\ shows entry row) /\
    length appointments = size db_two /\
    StronglySorted date_time_descending appointments.
Proof.
  exact (list_appointments_sorted cfg180 db_two).
Defined.

(** * Further properties *)

(** ** The validator's answers, read backwards *)

Section validator_answers.

Lemma answer_valid_inv v message :
  spec.answer v = (true, message) -> v = spec.Valid /\ message = "Medical exam is valid".
Proof. destruct v; cbn; intros [= <-]; done. Qed.

Lemma answer_format_inv v :
  spec.answer v = (false, "Invalid date format") -> v = spec.InvalidFormat.
Proof. destruct v; cbn; intros H; try done; discriminate H. Qed.

Lemma four_rules_lenient cfg now s :
  datetime.ok now = true ->
  validate_medical_exam cfg now s =
  Ok (spec.answer (spec.four_rules lenient.ymd (MEDICAL_EXAM_VALIDITY_DAYS cfg) now s)).
Proof.
  intros Hnow. rewrite validate_medical_exam_eq by done.
  unfold spec.four_rules. by rewrite strptime_lenient.
Qed.

(** the valid answer, characterised *)
Lemma validate_medical_exam_valid_iff_aux cfg now s message :
  datetime.ok now = true ->
  (validate_medical_exam cfg now s = Ok (true, message) <->
   message = "Medical exam is valid" /\
   exists exam, lenient.ymd s = Some exam /\
     0 <= spec.elapsed_days now exam <= MEDICAL_EXAM_VALIDITY_DAYS cfg).
Proof.
  intros Hnow. rewrite four_rules_lenient by done.
  unfold spec.four_rules. split.
  - intros [= H]. apply answer_valid_inv in H as [Hv ->]. split; [done|].
    destruct (lenient.ymd s) as [exam|]; [|done]. exists exam. split; [done|].
    cbn zeta in Hv.
    destruct (Z.ltb_spec (spec.elapsed_days now exam) 0); [done|].
    destruct (Z.ltb_spec (MEDICAL_EXAM_VALIDITY_DAYS cfg) (spec.elapsed_days now exam));
      [done|lia].
  - intros (-> & exam & -> & Hw). cbn zeta.
    destruct (Z.ltb_spec (spec.elapsed_days now exam) 0); [lia|].
    destruct (Z.ltb_spec (MEDICAL_EXAM_VALIDITY_DAYS cfg) (spec.elapsed_days now exam));
      [lia|done].
Qed.

End validator_answers.

(** X1: an exam date that reads as a day after the current date is
    answered invalid with the future-date message, whatever the
    window. *)
Theorem validate_medical_exam_future cfg now s exam :
  datetime.ok now = true ->
  lenient.ymd s = Some exam ->
  spec.elapsed_days now exam < 0 ->
  validate_medical_exam cfg now s =
    Ok (false, "Medical exam date cannot be in the future").
Proof.
  intros Hnow Hs Hlt. rewrite four_rules_lenient by done.
  unfold spec.four_rules. rewrite Hs. cbn zeta.
  destruct (Z.ltb_spec (spec.elapsed_days now exam) 0); [done|lia].
Qed.

Lemma validate_medical_exam_future_witness :
  validate_medical_exam cfg180 now_2024_06_01 "2024-6-2" =
    Ok (false, "Medical exam date cannot be in the future").
Proof.
  apply (validate_medical_exam_future cfg180 now_2024_06_01 "2024-6-2"
           (datetime.mk 2024 6 2 0 0 0 0));
    [reflexivity | reflexivity | vm_compute; reflexivity].
Defined.

(** X2: an exam date that reads as a day more than the window before
    the current date (and not after it) is answered invalid with the
    message that names the window in decimal. *)
Theorem validate_medical_exam_too_old cfg now s exam :
  datetime.ok now = true ->
  lenient.ymd s = Some exam ->
  0 <= spec.elapsed_days now exam ->
  MEDICAL_EXAM_VALIDITY_DAYS cfg < spec.elapsed_days now exam ->
  validate_medical_exam cfg now s =
    Ok (false, "Medical exam must be within the last "
               +:+ str (MEDICAL_EXAM_VALIDITY_DAYS cfg) +:+ " days").
Proof.
  intros Hnow Hs Hge Hgt. rewrite four_rules_lenient by done.
  unfold spec.four_rules. rewrite Hs. cbn zeta.
  destruct (Z.ltb_spec (spec.elapsed_days now exam) 0); [lia|].
  destruct (Z.ltb_spec (MEDICAL_EXAM_VALIDITY_DAYS cfg) (spec.elapsed_days now exam));
    [done|lia].
Qed.

Lemma validate_medical_exam_too_old_witness :
  validate_medical_exam cfg180 now_2024_06_01 "2023-12-03" =
    Ok (false, "Medical exam must be within the last 180 days").
Proof.
  apply (validate_medical_exam_too_old cfg180 now_2024_06_01 "2023-12-03"
           (datetime.mk 2023 12 3 0 0 0 0));
    [reflexivity | reflexivity | vm_compute; discriminate | vm_compute; reflexivity].
Defined.

Section accepted_texts.

Lemma month_field_length s v rest :
  lenient.month_field s = Some (v, rest) ->
  (String.length s = 1 + String.length rest \/
   String.length s = 2 + String.length rest)%nat.
Proof.
  destruct s as [|m1 [|m2 rest2]]; cbn [lenient.month_field]; unfold spec.digit;
    cbv zeta; [done| |].
  - case_tests; try done. intros [= <- <-]. by left.
  - case_tests; try done; intros [= <- <-]; cbn [String.length]; lia.
Qed.

Lemma day_field_length s v rest :
  lenient.day_field s = Some (v, rest) ->
  (String.length s = 1 + String.length rest \/
   String.length s = 2 + String.length rest)%nat.
Proof.
  destruct s as [|d1 [|d2 rest2]]; cbn [lenient.day_field]; unfold spec.digit;
    cbv zeta; [done| |].
  - case_tests; try done. intros [= <- <-]. by left.
  - case_tests; try done; intros [= <- <-]; cbn [String.length]; lia.
Qed.

(** what reads as a day has eight to ten characters *)
Lemma lenient_ymd_length s exam :
  lenient.ymd s = Some exam -> (8 <= String.length s <= 10)%nat.
Proof.
  destruct s as [|y1 [|y2 [|y3 [|y4 [|h1 rest]]]]]; try done.
  cbn [lenient.ymd].
  destruct (spec.digit y1); [|done]. destruct (spec.digit y2); [|done].
  destruct (spec.digit y3); [|done]. destruct (spec.digit y4); [|done].
  cbn [mbind option_bind].
  destruct (Ascii.eqb h1 "-"); [|done].
  destruct (lenient.month_field rest) as [[month rest3]|] eqn:Hm; [|done].
  cbn [mbind option_bind].
  destruct rest3 as [|h2 rest4]; [done|].
  destruct (Ascii.eqb h2 "-"); [|done].
  destruct (lenient.day_field rest4) as [[day rest5]|] eqn:Hd; [|done].
  cbn [mbind option_bind].
  destruct rest5 as [|c rest6]; [|done].
  intros _.
  apply month_field_length in Hm. apply day_field_length in Hd.
  cbn [String.length] in *. lia.
Qed.

End accepted_texts.

(** X3: the validator answers valid exactly when [strptime] reads the
    string as a day that lies between 0 and the window (inclusive) days
    before the current date, and the message is then the fixed one; it
    does so for every text of four digits, a hyphen, a month of one or
    two digits, a hyphen and a day of one or two digits (or a blank and
    a digit) that names such a day. *)
Theorem validate_medical_exam_valid_iff cfg now s message :
  datetime.ok now = true ->
  (validate_medical_exam cfg now s = Ok (true, message) <->
   message = "Medical exam is valid" /\
   exists exam, spec.strptime_ymd s = Some exam /\
     0 <= spec.elapsed_days now exam <= MEDICAL_EXAM_VALIDITY_DAYS cfg) /\
  (forall exam,
     lenient.ymd s = Some exam ->
     0 <= spec.elapsed_days now exam <= MEDICAL_EXAM_VALIDITY_DAYS cfg ->
     validate_medical_exam cfg now s = Ok (true, "Medical exam is valid")).
Proof.
  intros Hnow. split.
  - rewrite strptime_lenient. by apply validate_medical_exam_valid_iff_aux.
  - intros exam Hs Hw. apply validate_medical_exam_valid_iff_aux; [done|].
    split; [done|]. by exists exam.
Qed.

Lemma validate_medical_exam_valid_iff_witness :
  validate_medical_exam cfg180 now_2024_06_01 "2024-1-5" =
    Ok (true, "Medical exam is valid").
Proof.
  apply (proj2 (validate_medical_exam_valid_iff cfg180 now_2024_06_01 "2024-1-5"
                  "Medical exam is valid" eq_refl)
           (datetime.mk 2024 1 5 0 0 0 0));
    [reflexivity | vm_compute; split; discriminate].
Defined.

(** X4: the validator answers with the format message exactly when
    [strptime] refuses the string; it does so for every string of fewer
    than eight or more than ten characters, and never for a text of
    four digits, a hyphen, a month of one or two digits, a hyphen and a
    day of one or two digits (or a blank and a digit) that names a day
    of the calendar. *)
Theorem validate_medical_exam_format_iff cfg now s :
  datetime.ok now = true ->
  (validate_medical_exam cfg now s = Ok (false, "Invalid date format") <->
   spec.strptime_ymd s = None) /\
  ((String.length s < 8 \/ 10 < String.length s)%nat ->
   validate_medical_exam cfg now s = Ok (false, "Invalid date format")) /\
  (forall exam,
     lenient.ymd s = Some exam ->
     validate_medical_exam cfg now s <> Ok (false, "Invalid date format")).
Proof.
  intros Hnow.
  assert (validate_medical_exam cfg now s = Ok (false, "Invalid date format") <->
          lenient.ymd s = None) as Hiff.
  { rewrite four_rules_lenient by done.
    unfold spec.four_rules. split.
    - intros [= H]. apply answer_format_inv in H.
      destruct (lenient.ymd s) as [exam|]; [|done].
      cbn zeta in H. destruct (_ <? 0); [done|]. by destruct (_ <? _).
    - by intros ->. }
  split_and!.
  - by rewrite strptime_lenient.
  - intros Hlen. apply Hiff.
    destruct (lenient.ymd s) as [exam|] eqn:Hs; [|done].
    apply lenient_ymd_length in Hs. lia.
  - intros exam Hs H. apply Hiff in H. congruence.
Qed.

Lemma validate_medical_exam_format_iff_witness :
  validate_medical_exam cfg180 now_2024_06_01 "not-a-date-at-all" =
    Ok (false, "Invalid date format").
Proof.
  apply (proj1 (proj2 (validate_medical_exam_format_iff cfg180 now_2024_06_01
                         "not-a-date-at-all" eq_refl))).
  right. vm_compute. lia.
Defined.

(** X5: the answer depends on the current time only through its
    calendar date: at two times of the same day the validator answers
    the same. *)
Theorem validate_medical_exam_same_day cfg now1 now2 s :
  datetime.ok now1 = true ->
  datetime.ok now2 = true ->
  datetime.year now1 = datetime.year now2 ->
  datetime.month now1 = datetime.month now2 ->
  datetime.day now1 = datetime.day now2 ->
  validate_medical_exam cfg now1 s = validate_medical_exam cfg now2 s.
Proof.
  intros H1 H2 Hy Hm Hd. rewrite !four_rules_lenient by done.
  unfold spec.four_rules, spec.elapsed_days, datetime.toordinal.
  by rewrite Hy, Hm, Hd.
Qed.

Lemma validate_medical_exam_same_day_witness :
  validate_medical_exam cfg180 (datetime.mk 2024 6 1 0 0 0 0) "2023-12-04" =
  validate_medical_exam cfg180 (datetime.mk 2024 6 1 23 59 59 999999) "2023-12-04".
Proof.
  apply (validate_medical_exam_same_day cfg180 (datetime.mk 2024 6 1 0 0 0 0)
           (datetime.mk 2024 6 1 23 59 59 999999) "2023-12-04"); reflexivity.
Defined.

(** X6: widening the window never turns a valid answer into an invalid
    one. *)
Theorem validate_medical_exam_window_monotone name1 name2 req1 req2 N N' now s message :
  datetime.ok now = true ->
  N <= N' ->
  validate_medical_exam (Build_config name1 req1 N) now s = Ok (true, message) ->
  validate_medical_exam (Build_config name2 req2 N') now s = Ok (true, message).
Proof.
  intros Hnow Hle H.
  apply validate_medical_exam_valid_iff_aux in H as (-> & exam & Hs & Hw); [|done].
  apply validate_medical_exam_valid_iff_aux; [done|].
  split; [done|]. exists exam. split; [done|]. cbn in *. lia.
Qed.

Lemma validate_medical_exam_window_monotone_witness :
  validate_medical_exam (Build_config "Embassy" false 365) now_2024_06_01 "2024-01-01" =
    Ok (true, "Medical exam is valid").
Proof.
  apply (validate_medical_exam_window_monotone "U.S. Embassy" "Embassy" true false
           180 365 now_2024_06_01 "2024-01-01" "Medical exam is valid");
    [reflexivity | vm_compute; discriminate | reflexivity].
Defined.

(** X7: with a negative window the validator accepts nothing. *)
Theorem validate_medical_exam_negative_window cfg now s message :
  datetime.ok now = true ->
  MEDICAL_EXAM_VALIDITY_DAYS cfg < 0 ->
  validate_medical_exam cfg now s <> Ok (true, message).
Proof.
  intros Hnow Hneg H.
  apply validate_medical_exam_valid_iff_aux in H as (_ & exam & _ & Hw); [|done].
  lia.
Qed.

Lemma validate_medical_exam_negative_window_witness :
  validate_medical_exam (Build_config "U.S. Embassy" true (-1)) now_2024_06_01 "2024-06-01"
    <> Ok (true, "Medical exam is valid").
Proof.
  apply (validate_medical_exam_negative_window (Build_config "U.S. Embassy" true (-1))
           now_2024_06_01 "2024-06-01" "Medical exam is valid");
    [reflexivity | vm_compute; reflexivity].
Defined.

(** ** Elapsed days and the calendar *)

Section calendar_order.
Import datetime.

Lemma is_leap_cases y :
  (_is_leap y = true /\ (y mod 4 = 0 /\ (y mod 100 <> 0 \/ y mod 400 = 0))) \/
  (_is_leap y = false /\ (y mod 4 <> 0 \/ (y mod 100 = 0 /\ y mod 400 <> 0))).
Proof.
  unfold _is_leap.
  destruct (Z.eqb_spec (y mod 4) 0), (Z.eqb_spec (y mod 100) 0),
    (Z.eqb_spec (y mod 400) 0); cbn; intuition lia.
Qed.

Lemma days_before_year_succ y :
  _days_before_year (y + 1) =
  _days_before_year y + 365 + (if _is_leap y then 1 else 0).
Proof.
  unfold _days_before_year. cbv zeta.
  destruct (is_leap_cases y) as [[-> H]|[-> H]];
    replace (y + 1 - 1) with (y - 1 + 1) by lia;
    Z.to_euclidean_division_equations; lia.
Qed.

Lemma days_before_year_mono y y' :
  y <= y' -> _days_before_year y <= _days_before_year y'.
Proof.
  unfold _days_before_year. cbv zeta. intros H.
  Z.to_euclidean_division_equations. lia.
Qed.

Lemma month_cases m :
  1 <= m <= 12 ->
  m = 1 \/ m = 2 \/ m = 3 \/ m = 4 \/ m = 5 \/ m = 6 \/ m = 7 \/
  m = 8 \/ m = 9 \/ m = 10 \/ m = 11 \/ m = 12.
Proof. lia. Qed.

Lemma year_length y m :
  1 <= m <= 12 ->
  _days_before_month y m + _days_in_month y m <= 365 + (if _is_leap y then 1 else 0).
Proof.
  intros Hm%month_cases. unfold _days_before_month, _days_in_month.
  destruct (_is_leap y);
    repeat (destruct Hm as [->|Hm]; [cbn; lia|]); subst; cbn; lia.
Qed.

Lemma month_step y m1 m2 :
  1 <= m1 -> m1 < m2 -> m2 <= 12 ->
  _days_before_month y m1 + _days_in_month y m1 <= _days_before_month y m2.
Proof.
  intros H1 Hlt H2.
  assert (1 <= m1 <= 12) as Hc1%month_cases by lia.
  assert (1 <= m2 <= 12) as Hc2%month_cases by lia.
  unfold _days_before_month, _days_in_month.
  destruct (_is_leap y);
    repeat (destruct Hc1 as [->|Hc1]);
    repeat (destruct Hc2 as [->|Hc2]); subst; try lia; cbn; lia.
Qed.

(** a strictly earlier valid day has a strictly smaller ordinal *)
Lemma ymd2ord_lt y1 m1 d1 y2 m2 d2 :
  date_fields_ok y1 m1 d1 = true ->
  date_fields_ok y2 m2 d2 = true ->
  y1 < y2 \/ (y1 = y2 /\ (m1 < m2 \/ (m1 = m2 /\ d1 < d2))) ->
  _ymd2ord y1 m1 d1 < _ymd2ord y2 m2 d2.
Proof.
  rewrite !date_fields_ok_spec. intros (Hy1 & Hm1 & Hd1) (Hy2 & Hm2 & Hd2) Hlt.
  unfold _ymd2ord.
  pose proof (days_before_month_bounds y2 m2 Hm2).
  destruct Hlt as [Hy|[-> [Hm|[-> Hd]]]].
  - pose proof (year_length y1 m1 Hm1).
    pose proof (days_before_year_succ y1).
    pose proof (days_before_year_mono (y1 + 1) y2). lia.
  - pose proof (month_step y2 m1 m2). lia.
  - lia.
Qed.

Lemma toordinal_le_iff a b :
  date_fields_ok (year a) (month a) (day a) = true ->
  date_fields_ok (year b) (month b) (day b) = true ->
  (date_le a b <-> toordinal a <= toordinal b).
Proof.
  intros Ha Hb. unfold date_le, toordinal. split.
  - intros H.
    destruct (decide (year a = year b /\ month a = month b /\ day a = day b))
      as [(-> & -> & ->)|Hne]; [lia|].
    pose proof (ymd2ord_lt _ _ _ _ _ _ Ha Hb). lia.
  - intros H.
    destruct (decide (year b < year a \/
                      (year b = year a /\ (month b < month a \/
                         (month b = month a /\ day b < day a))))) as [Hlt|Hnlt].
    + pose proof (ymd2ord_lt _ _ _ _ _ _ Hb Ha Hlt). lia.
    + lia.
Qed.

Lemma lenient_ymd_ok s exam :
  lenient.ymd s = Some exam ->
  date_fields_ok (year exam) (month exam) (day exam) = true.
Proof.
  rewrite <- strptime_lenient. unfold spec.strptime_ymd.
  destruct (strptime_cases s) as [[msg ->]|(y & m & d & -> & Hok)]; [done|].
  by intros [= <-].
Qed.

Lemma ok_date now : ok now = true ->
  date_fields_ok (year now) (month now) (day now) = true.
Proof. unfold ok. by intros [? _]%andb_true_iff. Qed.

End calendar_order.

(** X8: the elapsed days the validator compares agree with the
    calendar: of two exam dates it reads, the one later in the calendar
    (or the same day) has no more elapsed days. *)
Theorem elapsed_days_calendar now s1 s2 exam1 exam2 :
  lenient.ymd s1 = Some exam1 ->
  lenient.ymd s2 = Some exam2 ->
  (date_le exam1 exam2 <->
   spec.elapsed_days now exam2 <= spec.elapsed_days now exam1).
Proof.
  intros H1%lenient_ymd_ok H2%lenient_ymd_ok.
  rewrite (toordinal_le_iff exam1 exam2) by done.
  unfold spec.elapsed_days. lia.
Qed.

Lemma elapsed_days_calendar_witness :
  date_le (datetime.mk 2023 12 31 0 0 0 0) (datetime.mk 2024 1 1 0 0 0 0) <->
  spec.elapsed_days now_2024_06_01 (datetime.mk 2024 1 1 0 0 0 0) <=
  spec.elapsed_days now_2024_06_01 (datetime.mk 2023 12 31 0 0 0 0).
Proof.
  apply (elapsed_days_calendar now_2024_06_01 "2023-12-31" "2024-1-1"
           (datetime.mk 2023 12 31 0 0 0 0) (datetime.mk 2024 1 1 0 0 0 0));
    reflexivity.
Defined.

(** X9: the exam dates the validator accepts form an interval of the
    calendar that ends at the current date: a date between an accepted
    date and today is accepted too. *)
Theorem validate_medical_exam_interval cfg now s1 s2 exam1 exam2 message :
  datetime.ok now = true ->
  lenient.ymd s1 = Some exam1 ->
  lenient.ymd s2 = Some exam2 ->
  date_le exam1 exam2 ->
  date_le exam2 now ->
  validate_medical_exam cfg now s1 = Ok (true, message) ->
  validate_medical_exam cfg now s2 = Ok (true, message).
Proof.
  intros Hnow H1 H2 H12 H2n Hv.
  apply validate_medical_exam_valid_iff_aux in Hv as (-> & e1 & He1 & Hw); [|done].
  rewrite H1 in He1. injection He1 as <-.
  apply validate_medical_exam_valid_iff_aux; [done|].
  split; [done|]. exists exam2. split; [done|].
  apply lenient_ymd_ok in H1, H2. apply ok_date in Hnow.
  apply (toordinal_le_iff exam1 exam2) in H12; [|done..].
  apply (toordinal_le_iff exam2 now) in H2n; [|done..].
  unfold spec.elapsed_days in *. lia.
Qed.

Lemma validate_medical_exam_interval_witness :
  validate_medical_exam cfg180 now_2024_06_01 "2024-02-29" =
    Ok (true, "Medical exam is valid").
Proof.
  apply (validate_medical_exam_interval cfg180 now_2024_06_01 "2023-12-04" "2024-02-29"
           (datetime.mk 2023 12 4 0 0 0 0) (datetime.mk 2024 2 29 0 0 0 0));
    [reflexivity | reflexivity | reflexivity
    | unfold date_le; cbn; lia | unfold date_le; cbn; lia | reflexivity].
Defined.

(** ** What the creation handler does to the table *)

(** X10: the creation handler answers 302, 400 or 500 and nothing else.
    On 302 the generated id was unused and the table gains exactly the
    new row under it; on 400 and 500 the table is as before. *)
Theorem create_appointment_outcomes cfg env data (db : table) :
  let '(resp, db') := create_appointment cfg env data db in
  (resp = RedirectResponse "appointment_detail" (uuid4 env) /\
   status_code resp = 302 /\
   db !! uuid4 env = None /\
   db' = <[uuid4 env := stored_row env data (uuid4 env)]> db) \/
  (status_code resp = 400 /\ db' = db) \/
  (status_code resp = 500 /\ db' = db).
Proof.
  unfold create_appointment, create_appointment_try.
  destruct (first_missing data required_fields) eqn:Hm; [right; left; done|].
  destruct (exam_rejection cfg env data) as [[message|]|e];
    [right; left; done| |right; right; done].
  apply first_missing_None in Hm. rewrite insert_values_present by done.
  unfold get_db, yield, connect, mbind, sql_bind, eval, execute_insert. cbn.
  destruct (db !! uuid4 env) eqn:Hid; [right; right; done|left; done].
Qed.

(** X11: the creation handler never changes or removes a row that is
    already stored. *)
Theorem create_appointment_keeps_rows cfg env data (db : table) appointment_id row :
  db !! appointment_id = Some row ->
  (create_appointment cfg env data db).2 !! appointment_id = Some row.
Proof.
  intros Hrow.
  destruct (create_appointment_all_or_nothing cfg env data db) as [->|[Hfresh ->]];
    [done|].
  rewrite lookup_insert_ne; [done|]. intros Heq. congruence.
Qed.

Lemma create_appointment_keeps_rows_witness :
  (create_appointment cfg180
     (Build_environment now_2024_06_01 "another-id" "2024-06-01 21:00:00")
     form_jane db_sample).2 !! appointment.id row_sample = Some row_sample.
Proof.
  apply (create_appointment_keeps_rows cfg180
           (Build_environment now_2024_06_01 "another-id" "2024-06-01 21:00:00")
           form_jane db_sample (appointment.id row_sample) row_sample).
  reflexivity.
Defined.

Section stored_rows.

Lemma present_nonempty data field :
  present data field -> get_default data field "" <> "".
Proof.
  unfold present, get_default, truthy.
  destruct (get data field) as [[|c v]|]; done.
Qed.

Lemma stored_row_ok env data appointment_id :
  Forall (present data) required_fields ->
  row_ok appointment_id (stored_row env data appointment_id).
Proof.
  unfold required_fields. rewrite !Forall_cons.
  intros (H1 & H2 & H3 & H4 & H5 & H6 & _).
  unfold row_ok, stored_row. cbn.
  split_and!; try done; by apply present_nonempty.
Qed.

Lemma create_appointment_table_ok cfg env data (db : table) :
  table_ok db -> table_ok (create_appointment cfg env data db).2.
Proof.
  intros Hok.
  pose proof (create_appointment_outcomes cfg env data db) as H.
  unfold create_appointment, create_appointment_try in *.
  destruct (first_missing data required_fields) eqn:Hm; [done|].
  destruct (exam_rejection cfg env data) as [[message|]|e]; [done| |done].
  apply first_missing_None in Hm. rewrite insert_values_present in * by done.
  unfold get_db, yield, connect, mbind, sql_bind, eval, execute_insert in *. cbn in *.
  destruct (db !! uuid4 env) eqn:Hid; [done|]. cbn.
  apply map_Forall_insert_2; [|done]. by apply stored_row_ok.
Qed.

Lemma reachable_table_ok_aux db : reachable db -> table_ok db.
Proof.
  induction 1 as [|cfg env data db Hr IH].
  - apply map_Forall_empty.
  - by apply create_appointment_table_ok.
Qed.

End stored_rows.

(** X12: every row of a table produced by creation requests is stored
    under its own id, is confirmed and marked verified, has its six
    required fields non-empty, and has equal creation and update
    stamps. *)
Theorem reachable_table_ok (db : table) appointment_id row :
  reachable db ->
  db !! appointment_id = Some row ->
  row_ok appointment_id row.
Proof.
  intros Hr Hrow. by apply (reachable_table_ok_aux db Hr appointment_id row).
Qed.

Lemma reachable_table_ok_witness :
  row_ok (uuid4 env_sample) row_sample.
Proof.
  apply (reachable_table_ok (create_appointment cfg180 env_sample form_jane ∅).2
           (uuid4 env_sample) row_sample).
  - apply reachable_create. apply reachable_empty.
  - reflexivity.
Defined.

(** X13: with the medical-exam requirement on, the table changes only
    if [strptime] read the submitted exam date as a day between 0 and
    the window (inclusive) days before the current date. *)
Theorem create_appointment_exam_checked cfg env data (db : table) :
  MEDICAL_EXAM_REQUIRED cfg = true ->
  datetime.ok (now env) = true ->
  (create_appointment cfg env data db).2 <> db ->
  exists exam_date_str exam,
    get data "medical_exam_date" = Some exam_date_str /\
    spec.strptime_ymd exam_date_str = Some exam /\
    0 <= spec.elapsed_days (now env) exam <= MEDICAL_EXAM_VALIDITY_DAYS cfg.
Proof.
  intros Hflag Hnow Hchanged.
  unfold create_appointment, create_appointment_try in Hchanged.
  destruct (first_missing data required_fields) eqn:Hm; [done|].
  destruct (exam_rejection cfg env data) as [[message|]|e] eqn:Hexam; [done| |done].
  unfold exam_rejection, getitem in Hexam. rewrite Hflag in Hexam.
  destruct (get data "medical_exam_date") as [exam_date_str|]; [|done].
  unfold mbind, result_bind in Hexam.
  destruct (validate_medical_exam cfg (now env) exam_date_str)
    as [[is_valid message]|e] eqn:Hv; [|done].
  destruct is_valid; [|done].
  apply validate_medical_exam_valid_iff_aux in Hv as (_ & exam & Hs & Hw); [|done].
  exists exam_date_str, exam. by rewrite strptime_lenient.
Qed.

Lemma create_appointment_exam_checked_witness :
  exists exam_date_str exam,
    get form_jane "medical_exam_date" = Some exam_date_str /\
    spec.strptime_ymd exam_date_str = Some exam /\
    0 <= spec.elapsed_days (now env_sample) exam <= MEDICAL_EXAM_VALIDITY_DAYS cfg180.
Proof.
  apply (create_appointment_exam_checked cfg180 env_sample form_jane ∅);
    [reflexivity | reflexivity |].
  intros H.
  assert ((create_appointment cfg180 env_sample form_jane ∅).2 !! uuid4 env_sample
          = Some row_sample) as L by (vm_compute; reflexivity).
  rewrite H in L. discriminate L.
Defined.

(** X14: when the creation handler answers with the redirect, fetching
    the new id shows the values as they were submitted: for each
    required field the first value the form holds for it, and for the
    phone number that value or the empty text when the form has none. *)
Theorem create_appointment_round_trip cfg env data (db db' : table) :
  create_appointment cfg env data db =
    (RedirectResponse "appointment_detail" (uuid4 env), db') ->
  exists row,
    appointment_detail cfg (uuid4 env) db' =
      (Ok (TemplateResponse "appointment_detail.html"
             [("appointment", CRow row);
              ("embassy_name", CStr (EMBASSY_NAME cfg))] 200), db') /\
    get data "applicant_name" = Some (appointment.applicant_name row) /\
    get data "email" = Some (appointment.email row) /\
    get data "passport_number" = Some (appointment.passport_number row) /\
    get data "appointment_date" = Some (appointment.appointment_date row) /\
    get data "appointment_time" = Some (appointment.appointment_time row) /\
    get data "medical_exam_date" = Some (appointment.medical_exam_date row) /\
    appointment.phone_number row =
      match get data "phone_number" with Some v => v | None => "" end.
Proof.
  intros Hcreate.
  unfold create_appointment, create_appointment_try in Hcreate.
  destruct (first_missing data required_fields) eqn:Hm; [done|].
  destruct (exam_rejection cfg env data) as [[message|]|e]; [done| |done].
  apply first_missing_None in Hm as Hreq.
  rewrite insert_values_present in Hcreate by done.
  unfold get_db, yield, connect, mbind, sql_bind, eval, execute_insert in Hcreate.
  cbn in Hcreate.
  destruct (db !! uuid4 env) eqn:Hid; [done|]. cbn in Hcreate.
  injection Hcreate as <-.
  exists (stored_row env data (uuid4 env)).
  rewrite appointment_detail_eq, lookup_insert_eq.
  unfold required_fields in Hreq. rewrite !Forall_cons in Hreq.
  destruct Hreq as (H1 & H2 & H3 & H4 & H5 & H6 & _).
  unfold present, truthy in *. unfold stored_row, get_default. cbn.
  destruct (get data "applicant_name"); [|done].
  destruct (get data "email"); [|done].
  destruct (get data "passport_number"); [|done].
  destruct (get data "appointment_date"); [|done].
  destruct (get data "appointment_time"); [|done].
  destruct (get data "medical_exam_date"); [|done].
  done.
Qed.

Lemma create_appointment_round_trip_witness :
  exists row,
    appointment_detail cfg180 (uuid4 env_sample) db_sample =
      (Ok (TemplateResponse "appointment_detail.html"
             [("appointment", CRow row);
              ("embassy_name", CStr (EMBASSY_NAME cfg180))] 200), db_sample) /\
    get form_jane "applicant_name" = Some (appointment.applicant_name row) /\
    get form_jane "email" = Some (appointment.email row) /\
    get form_jane "passport_number" = Some (appointment.passport_number row) /\
    get form_jane "appointment_date" = Some (appointment.appointment_date row) /\
    get form_jane "appointment_time" = Some (appointment.appointment_time row) /\
    get form_jane "medical_exam_date" = Some (appointment.medical_exam_date row) /\
    appointment.phone_number row =
      match get form_jane "phone_number" with Some v => v | None => "" end.
Proof.
  apply (create_appointment_round_trip cfg180 env_sample form_jane ∅ db_sample).
  reflexivity.
Defined.

(** X15: after a creation answered with the redirect, the listing is the
    listing before it with one entry added, and that entry holds the new
    id, the submitted values of the six required fields, the status
    "confirmed" and the verified mark. *)
Theorem create_then_list cfg env data (db db' : table) :
  create_appointment cfg env data db =
    (RedirectResponse "appointment_detail" (uuid4 env), db') ->
  exists before after entry,
    list_appointments cfg db =
      (Ok (TemplateResponse "appointments.html"
             [("appointments", CRows before);
              ("embassy_name", CStr (EMBASSY_NAME cfg))] 200), db) /\
    list_appointments cfg db' =
      (Ok (TemplateResponse "appointments.html"
             [("appointments", CRows after);
              ("embassy_name", CStr (EMBASSY_NAME cfg))] 200), db') /\
    after ≡ₚ entry :: before /\
    length after = S (length before) /\
    listed.id entry = uuid4 env /\
    get data "applicant_name" = Some (listed.applicant_name entry) /\
    get data "email" = Some (listed.email entry) /\
    get data "passport_number" = Some (listed.passport_number entry) /\
    get data "appointment_date" = Some (listed.appointment_date entry) /\
    get data "appointment_time" = Some (listed.appointment_time entry) /\
    get data "medical_exam_date" = Some (listed.medical_exam_date entry) /\
    listed.status entry = "confirmed" /\
    listed.medical_exam_verified entry = 1.
Proof.
  intros Hcreate.
  pose proof (create_appointment_outcomes cfg env data db) as H.
  rewrite Hcreate in H.
  destruct H as [(_ & _ & Hfresh & ->)|[[H _]|[H _]]]; [|done..].
  assert (Forall (present data) required_fields) as Hreq.
  { apply first_missing_None.
    unfold create_appointment, create_appointment_try in Hcreate.
    by destruct (first_missing data required_fields). }
  unfold required_fields in Hreq. rewrite !Forall_cons in Hreq.
  destruct Hreq as (H1 & H2 & H3 & H4 & H5 & H6 & _).
  eexists _, _, (listed.of_row (stored_row env data (uuid4 env))).
  split_and!.
  - unfold list_appointments, get_db, yield, connect, select_all_ordered. cbn.
    reflexivity.
  - unfold list_appointments, get_db, yield, connect, select_all_ordered. cbn.
    reflexivity.
  - rewrite !merge_sort_Permutation.
    rewrite map_to_list_insert by done. reflexivity.
  - rewrite !merge_sort_Permutation.
    rewrite map_to_list_insert by done. reflexivity.
  - reflexivity.
  - cbn. unfold present, truthy, get_default in *.
    by destruct (get data "applicant_name").
  - cbn. unfold present, truthy, get_default in *.
    by destruct (get data "email").
  - cbn. unfold present, truthy, get_default in *.
    by destruct (get data "passport_number").
  - cbn. unfold present, truthy, get_default in *.
    by destruct (get data "appointment_date").
  - cbn. unfold present, truthy, get_default in *.
    by destruct (get data "appointment_time").
  - cbn. unfold present, truthy, get_default in *.
    by destruct (get data "medical_exam_date").
  - reflexivity.
  - reflexivity.
Qed.

Lemma create_then_list_witness :
  exists before after entry,
    list_appointments cfg180 ∅ =
      (Ok (TemplateResponse "appointments.html"
             [("appointments", CRows before);
              ("embassy_name", CStr (EMBASSY_NAME cfg180))] 200), ∅) /\
    list_appointments cfg180 db_sample =
      (Ok (TemplateResponse "appointments.html"
             [("appointments", CRows after);
              ("embassy_name", CStr (EMBASSY_NAME cfg180))] 200), db_sample) /\
    after ≡ₚ entry :: before /\
    length after = S (length before) /\
    listed.id entry = uuid4 env_sample /\
    get form_jane "applicant_name" = Some (listed.applicant_name entry) /\
    get form_jane "email" = Some (listed.email entry) /\
    get form_jane "passport_number" = Some (listed.passport_number entry) /\
    get form_jane "appointment_date" = Some (listed.appointment_date entry) /\
    get form_jane "appointment_time" = Some (listed.appointment_time entry) /\
    get form_jane "medical_exam_date" = Some (listed.medical_exam_date entry) /\
    listed.status entry = "confirmed" /\
    listed.medical_exam_verified entry = 1.
Proof.
  apply (create_then_list cfg180 env_sample form_jane ∅ db_sample).
  reflexivity.
Defined.

(** ** The metrics *)

Section metrics_facts.

Lemma count_pending_ok (db : table) :
  table_ok db ->
  filter (fun kv : string * appointment.t => appointment.status kv.2 = "pending") db = ∅.
Proof.
  intros Hok. apply map_empty_filter. intros k row Hrow.
  destruct (Hok k row Hrow) as (_ & Hst & _). cbn. rewrite Hst. done.
Qed.

Lemma count_confirmed_ok (db : table) :
  table_ok db ->
  filter (fun kv : string * appointment.t => appointment.status kv.2 = "confirmed") db = db.
Proof.
  intros Hok. apply map_filter_id. intros k row Hrow.
  by destruct (Hok k row Hrow) as (_ & Hst & _).
Qed.

End metrics_facts.

(** X16: on a table of n rows produced by creation requests the metrics
    answer 200, as plain text, with the lines of the Prometheus
    exposition below: the total n, the pending count 0, the confirmed
    count n and the application information; the table is left as it
    is. *)
Theorem metrics_reachable dep (db : table) :
  reachable db ->
  metrics dep db =
    (Ok ("# HELP appointments_total Total number of appointments" +:+ nl +:+
         "# TYPE appointments_total counter" +:+ nl +:+
         "appointments_total " +:+ str (Z.of_nat (size db)) +:+ nl +:+
         nl +:+
         "# HELP appointments_pending Number of pending appointments" +:+ nl +:+
         "# TYPE appointments_pending gauge" +:+ nl +:+
         "appointments_pending 0" +:+ nl +:+
         nl +:+
         "# HELP appointments_confirmed Number of confirmed appointments" +:+ nl +:+
         "# TYPE appointments_confirmed gauge" +:+ nl +:+
         "appointments_confirmed " +:+ str (Z.of_nat (size db)) +:+ nl +:+
         nl +:+
         "# HELP app_info Application information" +:+ nl +:+
         "# TYPE app_info gauge" +:+ nl +:+
         "app_info{version=" +:+ dquote +:+ APP_VERSION dep +:+ dquote +:+
         ",environment=" +:+ dquote +:+ ENVIRONMENT dep +:+ dquote +:+ "} 1" +:+ nl,
         200, [("Content-Type", "text/plain; charset=utf-8")]), db).
Proof.
  intros Hok%reachable_table_ok_aux.
  unfold metrics, get_db, yield, connect, mbind, sql_bind, mret, sql_ret,
    count_all, count_by_status. cbn.
  rewrite count_pending_ok, count_confirmed_ok by done.
  by rewrite map_size_empty.
Qed.

Lemma metrics_reachable_witness :
  metrics dep_sample db_sample =
    (Ok ("# HELP appointments_total Total number of appointments" +:+ nl +:+
         "# TYPE appointments_total counter" +:+ nl +:+
         "appointments_total 1" +:+ nl +:+
         nl +:+
         "# HELP appointments_pending Number of pending appointments" +:+ nl +:+
         "# TYPE appointments_pending gauge" +:+ nl +:+
         "appointments_pending 0" +:+ nl +:+
         nl +:+
         "# HELP appointments_confirmed Number of confirmed appointments" +:+ nl +:+
         "# TYPE appointments_confirmed gauge" +:+ nl +:+
         "appointments_confirmed 1" +:+ nl +:+
         nl +:+
         "# HELP app_info Application information" +:+ nl +:+
         "# TYPE app_info gauge" +:+ nl +:+
         "app_info{version=" +:+ dquote +:+ "1.0.0" +:+ dquote +:+
         ",environment=" +:+ dquote +:+ "development" +:+ dquote +:+ "} 1" +:+ nl,
         200, [("Content-Type", "text/plain; charset=utf-8")]), db_sample).
Proof.
  assert (size db_sample = 1%nat) as Hsize by (vm_compute; reflexivity).
  pose proof (metrics_reachable dep_sample db_sample) as H.
  rewrite Hsize in H. apply H.
  assert ((create_appointment cfg180 env_sample form_jane ∅).2 = db_sample) as <-
    by (vm_compute; reflexivity).
  apply reachable_create. apply reachable_empty.
Defined.

(** ** The listing order and the calendar *)

Section strict_text_order.

Lemma strict_ymd_shape s exam :
  spec.strict_ymd s = Some exam ->
  exists y1 y2 y3 y4 m1 m2 d1 d2,
    s = String y1 (String y2 (String y3 (String y4 (String "-"
          (String m1 (String m2 (String "-" (String d1 (String d2 ""))))))))) /\
    (48 <= N_of_ascii y1 <= 57)%N /\ (48 <= N_of_ascii y2 <= 57)%N /\
    (48 <= N_of_ascii y3 <= 57)%N /\ (48 <= N_of_ascii y4 <= 57)%N /\
    (48 <= N_of_ascii m1 <= 57)%N /\ (48 <= N_of_ascii m2 <= 57)%N /\
    (48 <= N_of_ascii d1 <= 57)%N /\ (48 <= N_of_ascii d2 <= 57)%N /\
    datetime.year exam =
      1000 * (Z.of_N (N_of_ascii y1) - 48) + 100 * (Z.of_N (N_of_ascii y2) - 48)
      + 10 * (Z.of_N (N_of_ascii y3) - 48) + (Z.of_N (N_of_ascii y4) - 48) /\
    datetime.month exam =
      10 * (Z.of_N (N_of_ascii m1) - 48) + (Z.of_N (N_of_ascii m2) - 48) /\
    datetime.day exam =
      10 * (Z.of_N (N_of_ascii d1) - 48) + (Z.of_N (N_of_ascii d2) - 48).
Proof.
  unfold spec.strict_ymd.
  destruct s as [|y1 [|y2 [|y3 [|y4 [|h1 [|m1 [|m2 [|h2 [|d1 [|d2 [|]]]]]]]]]]];
    try done.
  destruct (spec.digit y1) as [a|] eqn:Ha; [|done].
  destruct (spec.digit y2) as [b|] eqn:Hb; [|done].
  destruct (spec.digit y3) as [c|] eqn:Hc; [|done].
  destruct (spec.digit y4) as [d|] eqn:Hd; [|done].
  destruct (spec.digit m1) as [e|] eqn:He; [|done].
  destruct (spec.digit m2) as [f|] eqn:Hf; [|done].
  destruct (spec.digit d1) as [g|] eqn:Hg; [|done].
  destruct (spec.digit d2) as [h|] eqn:Hh; [|done].
  cbn [mbind option_bind].
  apply digit_Some in Ha as [Ra ->], Hb as [Rb ->], Hc as [Rc ->],
    Hd as [Rd ->], He as [Re ->], Hf as [Rf ->], Hg as [Rg ->], Hh as [Rh ->].
  destruct (Ascii.eqb h1 "-") eqn:E1; [|done].
  destruct (Ascii.eqb h2 "-") eqn:E2; [|done].
  destruct (datetime.date_fields_ok _ _ _); [|done].
  cbn [andb]. intros [= <-].
  apply Ascii.eqb_eq in E1, E2. subst h1 h2.
  exists y1, y2, y3, y4, m1, m2, d1, d2.
  cbn [datetime.year datetime.month datetime.day]. split_and!; first [done | reflexivity | lia].
Qed.

(** on strict dates the order of the texts is the order of the days *)
Lemma strict_compare s1 s2 exam1 exam2 :
  spec.strict_ymd s1 = Some exam1 ->
  spec.strict_ymd s2 = Some exam2 ->
  match String.compare s1 s2 with
  | Lt => date_lt exam1 exam2
  | Eq => date_le exam1 exam2 /\ date_le exam2 exam1
  | Gt => date_lt exam2 exam1
  end.
Proof.
  intros (a1 & a2 & a3 & a4 & a5 & a6 & a7 & a8 & -> & ? & ? & ? & ? & ? & ? & ? & ?
          & Hy1 & Hm1 & Hd1)%strict_ymd_shape.
  intros (b1 & b2 & b3 & b4 & b5 & b6 & b7 & b8 & -> & ? & ? & ? & ? & ? & ? & ? & ?
          & Hy2 & Hm2 & Hd2)%strict_ymd_shape.
  unfold date_lt, date_le. rewrite Hy1, Hm1, Hd1, Hy2, Hm2, Hd2.
  cbn [String.compare]. unfold Ascii.compare.
  change (N_of_ascii "-" ?= N_of_ascii "-")%N with Eq. cbv iota.
  repeat match goal with
         | |- context [(?x ?= ?y)%N] =>
             destruct (N.compare_spec x y); cbv iota; try lia
         end.
Qed.

End strict_text_order.

(** X17: on strict [YYYY-MM-DD] texts the comparison the listing sorts
    by is the order of the calendar: one text is below the other
    exactly when its day is earlier. *)
Theorem strict_dates_text_order s1 s2 exam1 exam2 :
  spec.strict_ymd s1 = Some exam1 ->
  spec.strict_ymd s2 = Some exam2 ->
  (text_lt s1 s2 = true <-> date_lt exam1 exam2).
Proof.
  intros H1 H2. pose proof (strict_compare s1 s2 exam1 exam2 H1 H2) as H.
  unfold text_lt. unfold date_lt, date_le in *.
  destruct (String.compare s1 s2); split; try done; lia.
Qed.

Lemma strict_dates_text_order_witness :
  text_lt "2023-12-31" "2024-01-01" = true <->
  date_lt (datetime.mk 2023 12 31 0 0 0 0) (datetime.mk 2024 1 1 0 0 0 0).
Proof.
  apply (strict_dates_text_order "2023-12-31" "2024-01-01"); reflexivity.
Defined.

Section listing_order.

Lemma strongly_sorted_before {A} (R : relation A) l1 a l2 b l3 :
  StronglySorted R (l1 ++ a :: l2 ++ b :: l3)%list -> R a b.
Proof.
  intros H%StronglySorted_app_1_r.
  apply StronglySorted_inv in H as [_ H].
  apply Forall_app in H as [_ H]. by apply Forall_cons in H as [H _].
Qed.

End listing_order.

(** X18: in the listing, a record whose appointment date is a strict
    [YYYY-MM-DD] text never comes before a record with a later such
    date: among those records the listing runs from the latest day to
    the earliest. *)
Theorem list_appointments_latest_first cfg (db : table) appointments l1 a l2 b l3 day_a day_b :
  list_appointments cfg db =
    (Ok (TemplateResponse "appointments.html"
           [("appointments", CRows appointments);
            ("embassy_name", CStr (EMBASSY_NAME cfg))] 200), db) ->
  appointments = (l1 ++ a :: l2 ++ b :: l3)%list ->
  spec.strict_ymd (listed.appointment_date a) = Some day_a ->
  spec.strict_ymd (listed.appointment_date b) = Some day_b ->
  date_le day_b day_a.
Proof.
  intros Hlist -> Ha Hb.
  unfold list_appointments, get_db, yield, connect, select_all_ordered in Hlist.
  cbn in Hlist. injection Hlist as Hlist.
  pose proof (select_all_ordered_sorted (listed.of_row <$> (map_to_list db).*2)) as Hs.
  rewrite Hlist in Hs. apply strongly_sorted_before in Hs.
  pose proof (strict_compare _ _ _ _ Hb Ha) as Hc.
  destruct Hs as [Hlt|[Heq _]].
  - rewrite Hlt in Hc. unfold date_lt, date_le in *. lia.
  - rewrite Heq, compare_refl in Hc. by destruct Hc.
Qed.

Lemma list_appointments_latest_first_witness :
  date_le (datetime.mk 2024 7 10 0 0 0 0) (datetime.mk 2024 8 1 0 0 0 0).
Proof.
  apply (list_appointments_latest_first cfg180 db_two
           [listed.of_row (stored_row env_second form_later (uuid4 env_second));
            listed.of_row row_sample]
           [] (listed.of_row (stored_row env_second form_later (uuid4 env_second)))
           [] (listed.of_row row_sample) []);
    [vm_compute; reflexivity | reflexivity | reflexivity | reflexivity].
Defined.
